(** * Node execution engine of the call-flow backend ([backend/main.py])

    A shallow embedding of [execute_node] and of [ConnectionManager].
    The Mongo collection, the Redis cache, the subscriber registry, the
    frames each WebSocket peer has received, the clock, the uuid source, the
    metrics and the error sinks are fields of one [World]; the handler is a
    computation in a state-and-exception monad over it, run from the first
    [await] to the [return] without interleaving with other requests.

    The collaborators are taken to be reliable: a Mongo read, a Redis write
    and a WebSocket send complete without raising. A send takes the time its
    peer needs to accept the frame ([latency]); [asyncio.sleep] moves the
    clock by its argument. Two refusals of the libraries are part of the
    model: a second handshake on a socket ([accept]) and a document the
    driver cannot encode ([bson_error], a parameter of the routes that
    write documents). *)

From Stdlib Require Import NArith ZArith Floats.SpecFloat.
From stdpp Require Import gmap strings list fin_maps pretty.

Local Open Scope string_scope.
Local Open Scope list_scope.
Local Open Scope stdpp_scope.
Local Open Scope N_scope.
Local Set Warnings "-register-all".

(** ** Values *)

(** [Any], as it occurs in [Dict[str, Any]]: the values a JSON request body
    decodes to. Dictionaries keep their insertion order. *)
Inductive Any : Type :=
| JNull
| JBool (b : bool)
| JInt (z : Z)
| JFloat (f : spec_float)
| JStr (s : string)
| JList (l : list Any)
| JDict (d : list (string * Any)).

(** Python truth value testing ([if not flow_id:]). *)
Definition truthy (v : Any) : bool :=
  match v with
  | JNull => false
  | JBool b => b
  | JInt z => negb (z =? 0)%Z
  | JFloat (S754_zero _) => false
  | JFloat _ => true
  | JStr s => negb (String.eqb s "")
  | JList l => match l with [] => false | _ :: _ => true end
  | JDict d => match d with [] => false | _ :: _ => true end
  end.

(** The binary64 literal [0.95]. *)
Definition float_0_95 : spec_float := S754_finite false 8556839292003942 (-53).

(** ** Database models *)

Record Node := {
  n_id : string;
  n_type : string;
  n_data : gmap string Any;
  n_position : gmap string spec_float
}.

Record Edge := {
  e_id : string;
  e_source : string;
  e_target : string;
  e_sourceHandle : option string;
  e_targetHandle : option string
}.

Record Workflow := {
  w_id : string;
  w_name : string;
  w_nodes : list Node;
  w_edges : list Edge;
  w_created_at : N;
  w_updated_at : N
}.

(** ** Messages, cache entries, exceptions *)

(** A WebSocket object; [list.remove] and [in] compare them by identity. *)
Definition WebSocket := nat.

(** The dict handed to [send_json]: [{"type": .., "data": {..}, "timestamp": ..}].
    The timestamp is the clock reading instead of its ISO rendering. *)
Record Message := {
  m_type : string;
  m_data : list (string * Any);
  m_timestamp : N
}.

(** What [json.dumps({"result": .., "timestamp": ..})] serialises. *)
Record CachedResult := {
  cr_result : Any;
  cr_timestamp : N
}.

Record RedisEntry := {
  re_value : CachedResult;
  re_expires_at : N
}.

Inductive Exn : Type :=
| HTTPException (status_code : nat) (detail : string)
| ValueError (msg : string)
| RuntimeError (msg : string)
| OverflowError (msg : string).

(** [str(e)]. *)
Definition str (e : Exn) : string :=
  match e with
  | HTTPException code detail => pretty code +:+ ": " +:+ detail
  | ValueError msg => msg
  | RuntimeError msg => msg
  | OverflowError msg => msg
  end.

(** The two dicts [execute_node] returns. *)
Inductive Response : Type :=
| Success (data : Any)      (* {"success": True, "data": result} *)
| Failure (error : string). (* {"success": False, "error": error} *)

(** ** The world *)

Record World := {
  workflows : list Workflow;                       (* db.workflows *)
  redis : gmap string RedisEntry;                  (* redis_client *)
  active_connections : gmap string (list WebSocket); (* manager *)
  accepted : gset nat;                             (* sockets whose handshake is done *)
  inbox : gmap WebSocket (list (N * Message));     (* frames a peer has received, with arrival time *)
  latency : WebSocket → N;                         (* time a peer takes to accept one frame *)
  now : N;                                         (* the clock, in seconds *)
  uuid_pool : nat → string;                        (* what uuid.uuid4() will return *)
  uuid_drawn : nat;
  NODE_EXECUTIONS : gmap string nat;               (* counter, by node_type *)
  EXECUTION_TIME : list (string * N);              (* histogram observations, by node_type *)
  error_log : list string;                         (* logger.error *)
  sentry : list Exn                                (* sentry_sdk.capture_exception *)
}.

Definition set_redis (r : gmap string RedisEntry) (w : World) : World :=
  {| workflows := workflows w; redis := r;
     active_connections := active_connections w; inbox := inbox w;
     accepted := accepted w; latency := latency w;
     now := now w; uuid_pool := uuid_pool w;
     uuid_drawn := uuid_drawn w; NODE_EXECUTIONS := NODE_EXECUTIONS w;
     EXECUTION_TIME := EXECUTION_TIME w; error_log := error_log w;
     sentry := sentry w |}.

Definition set_active_connections (a : gmap string (list WebSocket)) (w : World) : World :=
  {| workflows := workflows w; redis := redis w;
     active_connections := a; inbox := inbox w;
     accepted := accepted w; latency := latency w;
     now := now w; uuid_pool := uuid_pool w;
     uuid_drawn := uuid_drawn w; NODE_EXECUTIONS := NODE_EXECUTIONS w;
     EXECUTION_TIME := EXECUTION_TIME w; error_log := error_log w;
     sentry := sentry w |}.

Definition set_accepted (a : gset nat) (w : World) : World :=
  {| workflows := workflows w; redis := redis w;
     active_connections := active_connections w; inbox := inbox w;
     accepted := a; latency := latency w;
     now := now w; uuid_pool := uuid_pool w;
     uuid_drawn := uuid_drawn w; NODE_EXECUTIONS := NODE_EXECUTIONS w;
     EXECUTION_TIME := EXECUTION_TIME w; error_log := error_log w;
     sentry := sentry w |}.

Definition set_inbox (i : gmap WebSocket (list (N * Message))) (w : World) : World :=
  {| workflows := workflows w; redis := redis w;
     active_connections := active_connections w; inbox := i;
     accepted := accepted w; latency := latency w;
     now := now w; uuid_pool := uuid_pool w;
     uuid_drawn := uuid_drawn w; NODE_EXECUTIONS := NODE_EXECUTIONS w;
     EXECUTION_TIME := EXECUTION_TIME w; error_log := error_log w;
     sentry := sentry w |}.

Definition set_now (t : N) (w : World) : World :=
  {| workflows := workflows w; redis := redis w;
     active_connections := active_connections w; inbox := inbox w;
     accepted := accepted w; latency := latency w;
     now := t; uuid_pool := uuid_pool w;
     uuid_drawn := uuid_drawn w; NODE_EXECUTIONS := NODE_EXECUTIONS w;
     EXECUTION_TIME := EXECUTION_TIME w; error_log := error_log w;
     sentry := sentry w |}.

Definition set_uuid_drawn (n : nat) (w : World) : World :=
  {| workflows := workflows w; redis := redis w;
     active_connections := active_connections w; inbox := inbox w;
     accepted := accepted w; latency := latency w;
     now := now w; uuid_pool := uuid_pool w;
     uuid_drawn := n; NODE_EXECUTIONS := NODE_EXECUTIONS w;
     EXECUTION_TIME := EXECUTION_TIME w; error_log := error_log w;
     sentry := sentry w |}.

Definition set_NODE_EXECUTIONS (c : gmap string nat) (w : World) : World :=
  {| workflows := workflows w; redis := redis w;
     active_connections := active_connections w; inbox := inbox w;
     accepted := accepted w; latency := latency w;
     now := now w; uuid_pool := uuid_pool w;
     uuid_drawn := uuid_drawn w; NODE_EXECUTIONS := c;
     EXECUTION_TIME := EXECUTION_TIME w; error_log := error_log w;
     sentry := sentry w |}.

Definition set_EXECUTION_TIME (h : list (string * N)) (w : World) : World :=
  {| workflows := workflows w; redis := redis w;
     active_connections := active_connections w; inbox := inbox w;
     accepted := accepted w; latency := latency w;
     now := now w; uuid_pool := uuid_pool w;
     uuid_drawn := uuid_drawn w; NODE_EXECUTIONS := NODE_EXECUTIONS w;
     EXECUTION_TIME := h; error_log := error_log w;
     sentry := sentry w |}.

Definition set_error_log (l : list string) (w : World) : World :=
  {| workflows := workflows w; redis := redis w;
     active_connections := active_connections w; inbox := inbox w;
     accepted := accepted w; latency := latency w;
     now := now w; uuid_pool := uuid_pool w;
     uuid_drawn := uuid_drawn w; NODE_EXECUTIONS := NODE_EXECUTIONS w;
     EXECUTION_TIME := EXECUTION_TIME w; error_log := l;
     sentry := sentry w |}.

Definition set_sentry (l : list Exn) (w : World) : World :=
  {| workflows := workflows w; redis := redis w;
     active_connections := active_connections w; inbox := inbox w;
     accepted := accepted w; latency := latency w;
     now := now w; uuid_pool := uuid_pool w;
     uuid_drawn := uuid_drawn w; NODE_EXECUTIONS := NODE_EXECUTIONS w;
     EXECUTION_TIME := EXECUTION_TIME w; error_log := error_log w;
     sentry := l |}.

(** ** The monad: state passing, with exceptions that keep the state *)

Inductive Result (A : Type) : Type :=
| Ok (a : A)
| Raise (e : Exn).
Arguments Ok {A} a.
Arguments Raise {A} e.

Definition M (A : Type) : Type := World → Result A * World.

Definition ret {A} (a : A) : M A := λ w, (Ok a, w).

Definition bind {A B} (c : M A) (k : A → M B) : M B :=
  λ w, match c w with
       | (Ok a, w') => k a w'
       | (Raise e, w') => (Raise e, w')
       end.

Definition raise {A} (e : Exn) : M A := λ w, (Raise e, w).

(** [try: body except Exception as e: handler(e)]. *)
Definition try_except {A} (body : M A) (handler : Exn → M A) : M A :=
  λ w, match body w with
       | (Ok a, w') => (Ok a, w')
       | (Raise e, w') => handler e w'
       end.

#[export] Instance M_ret : MRet M := @ret.
#[export] Instance M_bind : MBind M := λ A B k c, bind c k.

(** [for x in xs: await f(x)]. *)
Fixpoint for_each {A} (xs : list A) (f : A → M unit) : M unit :=
  match xs with
  | [] => ret tt
  | x :: xs' => f x;; for_each xs' f
  end.

(** ** Collaborators *)

(** [db.workflows.find_one({"id": workflow_id})]: the first document with
    that id, or [None]. A document found is a non-empty dict, so
    [if not workflow] is the test for [None]. *)
Definition find_one (workflow_id : string) : M (option Workflow) :=
  λ w, (Ok (List.find (λ wf, String.eqb (w_id wf) workflow_id) (workflows w)), w).

Definition datetime_now : M N := λ w, (Ok (now w), w).

(** [await asyncio.sleep(d)]: the clock moves on by [d]. *)
Definition asyncio_sleep (d : N) : M unit := λ w, (Ok tt, set_now (now w + d) w).

Definition uuid4 : M string :=
  λ w, (Ok (uuid_pool w (uuid_drawn w)), set_uuid_drawn (S (uuid_drawn w)) w).

Definition inbox_of (w : World) (ws : WebSocket) : list (N * Message) :=
  default [] (inbox w !! ws).

(** [await connection.send_json(message)]: the coroutine resumes once the
    peer has taken the frame, [latency] later. *)
Definition send_json (ws : WebSocket) (message : Message) : M unit :=
  λ w, let t := now w + latency w ws in
       (Ok tt, set_now t (set_inbox (<[ws := inbox_of w ws ++ [(t, message)]]> (inbox w)) w)).

(** [redis_client.setex(key, ttl, value)]. *)
Definition redis_setex (key : string) (ttl : N) (value : CachedResult) : M unit :=
  λ w, (Ok tt, set_redis (<[key := {| re_value := value; re_expires_at := now w + ttl |}]> (redis w)) w).

(** Modelled from the spec: the read side of the result cache, which no code
    of the backend calls. [Get] returns the payload if present and not
    expired, else a miss; an entry is expired from its absolute expiry on. *)
Definition redis_get (key : string) : M (option CachedResult) :=
  λ w, (Ok (match redis w !! key with
            | Some e => if decide (now w < re_expires_at e) then Some (re_value e) else None
            | None => None
            end), w).

Definition NODE_EXECUTIONS_inc (node_type : string) : M unit :=
  λ w, (Ok tt, set_NODE_EXECUTIONS
                 (<[node_type := S (default 0%nat (NODE_EXECUTIONS w !! node_type))]> (NODE_EXECUTIONS w)) w).

(** [with EXECUTION_TIME.labels(node_type).time(): body]: the duration is
    observed when the block is left, by return or by exception. *)
Definition EXECUTION_TIME_time {A} (node_type : string) (body : M A) : M A :=
  λ w, let t0 := now w in
       let '(r, w') := body w in
       (r, set_EXECUTION_TIME (EXECUTION_TIME w' ++ [(node_type, now w' - t0)]) w').

Definition logger_error (line : string) : M unit :=
  λ w, (Ok tt, set_error_log (error_log w ++ [line]) w).

Definition sentry_capture_exception (e : Exn) : M unit :=
  λ w, (Ok tt, set_sentry (sentry w ++ [e]) w).

(** ** WebSocket connection manager *)

(** A text between double quotes. *)
Definition quoted (s : string) : string :=
  String (Ascii.ascii_of_nat 34) s +:+ String (Ascii.ascii_of_nat 34) EmptyString.

(** [await websocket.accept()]: completes the handshake of a socket that is
    still connecting; on a socket whose handshake is done the accept message
    is refused with [RuntimeError]. *)
Definition accept (websocket : WebSocket) : M unit :=
  λ w, if decide (websocket ∈ accepted w)
       then (Raise (RuntimeError
                      ("Expected ASGI message " +:+ quoted "websocket.send" +:+ " or "
                       +:+ quoted "websocket.close" +:+ ", but got 'websocket.accept'")), w)
       else (Ok tt, set_accepted ({[ websocket ]} ∪ accepted w) w).

Module ConnectionManager.

(** [list.remove(x)]: drops the first occurrence, [ValueError] if none. *)
Fixpoint list_remove (x : WebSocket) (l : list WebSocket) : option (list WebSocket) :=
  match l with
  | [] => None
  | y :: l' => if decide (y = x) then Some l'
               else cons y <$> list_remove x l'
  end.

(** After the handshake the handle is appended to the workflow's list,
    which is created when the workflow has none. *)
Definition connect (websocket : WebSocket) (workflow_id : string) : M unit :=
  accept websocket;;
  ((λ w, let conns := default [] (active_connections w !! workflow_id) in
         (Ok tt, set_active_connections
                   (<[workflow_id := conns ++ [websocket]]> (active_connections w)) w))
   : M unit).

Definition disconnect (websocket : WebSocket) (workflow_id : string) : M unit :=
  λ w, match active_connections w !! workflow_id with
       | Some conns =>
           match list_remove websocket conns with
           | Some conns' =>
               (Ok tt, set_active_connections
                         (<[workflow_id := conns']> (active_connections w)) w)
           | None => (Raise (ValueError "list.remove(x): x not in list"), w)
           end
       | None => (Ok tt, w)
       end.

Definition broadcast_to_workflow (workflow_id : string) (message : Message) : M unit :=
  λ w, match active_connections w !! workflow_id with
       | Some conns => for_each conns (λ connection, send_json connection message) w
       | None => (Ok tt, w)
       end.

End ConnectionManager.

(** ** Node execution *)

Definition start_message (node_id workflow_id : string) (t : N) : Message :=
  {| m_type := "node_execution_start";
     m_data := [("node_id", JStr node_id); ("workflow_id", JStr workflow_id);
                ("status", JStr "running")];
     m_timestamp := t |}.

Definition complete_message (node_id workflow_id : string) (result : Any) (t : N) : Message :=
  {| m_type := "node_execution_complete";
     m_data := [("node_id", JStr node_id); ("workflow_id", JStr workflow_id);
                ("status", JStr "completed"); ("result", result)];
     m_timestamp := t |}.

Definition error_message (node_id workflow_id : string) (error : string) (t : N) : Message :=
  {| m_type := "node_execution_error";
     m_data := [("node_id", JStr node_id); ("workflow_id", JStr workflow_id);
                ("status", JStr "error"); ("error", JStr error)];
     m_timestamp := t |}.

(** [next((n for n in workflow["nodes"] if n["id"] == node_id), None)]; a
    node found has an ["id"], so [if not node] is the test for [None]. *)
Definition find_node (node_id : string) (nodes : list Node) : option Node :=
  List.find (λ n, String.eqb (n_id n) node_id) nodes.

(** The [if]/[elif] chain on [node["type"]]; its value is what [result] is
    bound to when the chain is left ([None] when no branch matches). In the
    [aiNode] branch the request to Langflow is commented out in the source:
    what is left inside [async with httpx.AsyncClient()] is the sleep and the
    assignment, and the inner [except httpx.HTTPError] has nothing to catch. *)
Definition run_step (node : Node) : M Any :=
  if String.eqb (n_type node) "startCall" then
    u ← uuid4;
    ret (JDict [("call_sid", JStr ("CA" +:+ u)); ("status", JStr "initiated");
                ("from", JStr "+15551234567"); ("to", JStr "+15559876543")])
  else if String.eqb (n_type node) "playAudio" then
    let message := default (JStr "Hello, this is a default message.")
                           (n_data node !! "audioMessage") in
    u ← uuid4;
    let result := JDict [("audio_id", JStr ("audio_" +:+ u)); ("message", message);
                         ("status", JStr "generated")] in
    asyncio_sleep 1;;
    ret result
  else if String.eqb (n_type node) "aiNode" then
    let flow_id := default JNull (n_data node !! "flowId") in
    if negb (truthy flow_id) then raise (ValueError "No flow ID specified for AI Node")
    else
      asyncio_sleep 2;;
      ret (JDict [("response", JStr "This is a simulated AI response");
                  ("confidence", JFloat float_0_95); ("intent", JStr "greeting")])
  else if String.eqb (n_type node) "endCall" then
    ret (JDict [("status", JStr "completed"); ("duration", JInt 120);
                ("outcome", JStr "success")])
  else ret JNull.

(** [locals] is the pair ([result], [error]) as the [try] statement leaves
    it. Every [raise] inside the [try] block happens while [result] is still
    [None], so [result] is [JNull] on the handler's side. [input_data] is
    read by the commented-out request only. *)
Definition execute_node (node_id workflow_id : string) (input_data : gmap string Any)
  : M Response :=
  workflow ← find_one workflow_id;
  match workflow with
  | None => raise (HTTPException 404 "Workflow not found")
  | Some workflow =>
    match find_node node_id (w_nodes workflow) with
    | None => raise (HTTPException 404 "Node not found")
    | Some node =>
      locals ← try_except
        (t ← datetime_now;
         ConnectionManager.broadcast_to_workflow workflow_id
           (start_message node_id workflow_id t);;
         NODE_EXECUTIONS_inc (n_type node);;
         result ← EXECUTION_TIME_time (n_type node) (run_step node);
         t ← datetime_now;
         redis_setex ("node_result:" +:+ node_id) 3600
           {| cr_result := result; cr_timestamp := t |};;
         t ← datetime_now;
         ConnectionManager.broadcast_to_workflow workflow_id
           (complete_message node_id workflow_id result t);;
         ret (result, None))
        (λ e,
         logger_error ("Error executing node " +:+ node_id +:+ ": " +:+ str e);;
         sentry_capture_exception e;;
         let error := str e in
         t ← datetime_now;
         ConnectionManager.broadcast_to_workflow workflow_id
           (error_message node_id workflow_id error t);;
         ret (JNull, Some error));
      match locals with
      | (result, Some error) =>
          if negb (String.eqb error "") then ret (Failure error)
          else ret (Success result)
      | (result, None) => ret (Success result)
      end
    end
  end.

(** * Observations *)

Definition find_workflow (w : World) (workflow_id : string) : option Workflow :=
  List.find (λ wf, String.eqb (w_id wf) workflow_id) (workflows w).

(** The handles registered for a workflow, in registration order. *)
Definition subscribers (w : World) (workflow_id : string) : list WebSocket :=
  default [] (active_connections w !! workflow_id).

(** The messages a peer has received, oldest first, and when they arrived. *)
Definition events (w : World) (ws : WebSocket) : list Message :=
  (inbox_of w ws).*2.

Definition arrivals (w : World) (ws : WebSocket) : list N :=
  (inbox_of w ws).*1.

Definition total_latency (w : World) (conns : list WebSocket) : N :=
  foldr (λ c acc, latency w c + acc) 0 conns.

Definition send_all (conns : list WebSocket) (message : Message) : M unit :=
  for_each conns (λ connection, send_json connection message).

(** The world a broadcast leaves behind. *)
Definition broadcast_world (workflow_id : string) (message : Message) (w : World) : World :=
  (ConnectionManager.broadcast_to_workflow workflow_id message w).2.

(** A fan-out touches the clock and the inboxes, nothing else. *)
Record same_backend (w w' : World) : Prop := {
  sb_workflows : workflows w' = workflows w;
  sb_redis : redis w' = redis w;
  sb_active_connections : active_connections w' = active_connections w;
  sb_accepted : accepted w' = accepted w;
  sb_latency : latency w' = latency w;
  sb_uuid_pool : uuid_pool w' = uuid_pool w;
  sb_uuid_drawn : uuid_drawn w' = uuid_drawn w;
  sb_NODE_EXECUTIONS : NODE_EXECUTIONS w' = NODE_EXECUTIONS w;
  sb_EXECUTION_TIME : EXECUTION_TIME w' = EXECUTION_TIME w;
  sb_error_log : error_log w' = error_log w;
  sb_sentry : sentry w' = sentry w
}.

Definition cache_key (node_id : string) : string := "node_result:" +:+ node_id.

Definition flow_id_of (node : Node) : Any := default JNull (n_data node !! "flowId").

Definition no_flow_id : string := "No flow ID specified for AI Node".

(** The world in which the step runs: start event sent, counter bumped. *)
Definition started (node_id workflow_id node_type : string) (w : World) : World :=
  (NODE_EXECUTIONS_inc node_type
     (broadcast_world workflow_id (start_message node_id workflow_id (now w)) w)).2.

(** Leaving the timed block from world [w3]. *)
Definition timed (node_type : string) (t0 : N) (w3 : World) : World :=
  set_EXECUTION_TIME (EXECUTION_TIME w3 ++ [(node_type, now w3 - t0)]) w3.

Definition known_type (node_type : string) : Prop :=
  node_type = "startCall" ∨ node_type = "playAudio" ∨
  node_type = "aiNode" ∨ node_type = "endCall".

(** A node one of the four executors accepts: of a known type, and with a
    flow ID that passes [if not flow_id] when it is an [aiNode]. *)
Definition runnable (node : Node) : Prop :=
  n_type node = "startCall" ∨ n_type node = "playAudio" ∨
  (n_type node = "aiNode" ∧ truthy (flow_id_of node) = true) ∨
  n_type node = "endCall".

(** ** A running example

    Workflow ["w1"] with five nodes and two subscribers, [7] and [8]; the
    cache already holds a result for node ["n4"]. *)

Definition play_hi : Node :=
  {| n_id := "n1"; n_type := "playAudio";
     n_data := {[ "audioMessage" := JStr "Hi" ]}; n_position := ∅ |}.

Definition ai_without_flow : Node :=
  {| n_id := "n2"; n_type := "aiNode"; n_data := ∅; n_position := ∅ |}.

Definition ai_empty_flow : Node :=
  {| n_id := "n3"; n_type := "aiNode";
     n_data := {[ "flowId" := JStr "" ]}; n_position := ∅ |}.

Definition transfer : Node :=
  {| n_id := "n4"; n_type := "transferCall"; n_data := ∅; n_position := ∅ |}.

Definition ai_with_flow : Node :=
  {| n_id := "n5"; n_type := "aiNode";
     n_data := {[ "flowId" := JStr "flow-1" ]}; n_position := ∅ |}.

Definition demo_workflow : Workflow :=
  {| w_id := "w1"; w_name := "demo";
     w_nodes := [play_hi; ai_without_flow; ai_empty_flow; transfer; ai_with_flow];
     w_edges := []; w_created_at := 0; w_updated_at := 0 |}.

Definition earlier_result : RedisEntry :=
  {| re_value := {| cr_result := JDict [("status", JStr "completed")];
                    cr_timestamp := 90 |};
     re_expires_at := 3690 |}.

(** Every peer takes its frames at once, except [slow], which needs [d]. *)
Definition demo_world_with (slow : WebSocket) (d : N) : World :=
  {| workflows := [demo_workflow];
     redis := {[ "node_result:n4" := earlier_result ]};
     active_connections := {[ "w1" := [7%nat; 8%nat] ]};
     accepted := {[ 7%nat; 8%nat ]};
     inbox := ∅;
     latency := λ ws, if decide (ws = slow) then d else 0;
     now := 100;
     uuid_pool := λ n, "uuid-" +:+ pretty n;
     uuid_drawn := 0;
     NODE_EXECUTIONS := ∅; EXECUTION_TIME := []; error_log := []; sentry := [] |}.

Definition demo_world : World := demo_world_with 7%nat 0.

(** * The other routes *)

(** ** Workflow CRUD operations

    The collection is the list of its documents in insertion order; what
    Mongo adds to a document ([_id]) is not part of it. [get_workflow] and
    [get_workflows], which rewrite ["id"] from [_id], are left out. *)

Definition set_workflows (l : list Workflow) (w : World) : World :=
  {| workflows := l; redis := redis w;
     active_connections := active_connections w; inbox := inbox w;
     accepted := accepted w; latency := latency w;
     now := now w; uuid_pool := uuid_pool w;
     uuid_drawn := uuid_drawn w; NODE_EXECUTIONS := NODE_EXECUTIONS w;
     EXECUTION_TIME := EXECUTION_TIME w; error_log := error_log w;
     sentry := sentry w |}.

(** [update_one({"id": workflow_id}, {"$set": doc})]: every field of the first
    document with that id is set from [doc]; [None] when nothing matched. *)
Fixpoint update_one (workflow_id : string) (doc : Workflow) (l : list Workflow)
  : option (list Workflow) :=
  match l with
  | [] => None
  | wf :: l' => if String.eqb (w_id wf) workflow_id then Some (doc :: l')
                else cons wf <$> update_one workflow_id doc l'
  end.

(** [workflow_dict["updated_at"] = datetime.now()]. *)
Definition touch (workflow : Workflow) (t : N) : Workflow :=
  {| w_id := w_id workflow; w_name := w_name workflow; w_nodes := w_nodes workflow;
     w_edges := w_edges workflow; w_created_at := w_created_at workflow;
     w_updated_at := t |}.

Section workflow_writes.

(** What the driver's BSON encoder makes of a document it is asked to send:
    [None] when it encodes it, the exception it raises otherwise (an
    [OverflowError] for an integer beyond 8 bytes, for one). The document is
    encoded before anything reaches the server, so a document that is
    refused changes nothing. *)
Variable bson_error : Workflow → option Exn.

(** [db.workflows.insert_one(workflow_dict)]; the value is the ["data"] of
    [{"success": True, "data": workflow_dict}], without the [_id] the driver
    adds to the dict it is given. *)
Definition create_workflow (workflow : Workflow) : M Workflow :=
  λ w, match bson_error workflow with
       | Some e => (Raise e, w)
       | None => (Ok workflow, set_workflows (workflows w ++ [workflow]) w)
       end.

Definition update_workflow (workflow_id : string) (workflow : Workflow) : M Workflow :=
  λ w, let workflow_dict := touch workflow (now w) in
       match bson_error workflow_dict with
       | Some e => (Raise e, w)
       | None =>
           match update_one workflow_id workflow_dict (workflows w) with
           | Some l => (Ok workflow_dict, set_workflows l w)
           | None => (Raise (HTTPException 404 "Workflow not found"), w)
           end
       end.

End workflow_writes.

(** An encoder that knows the one refusal the examples need: an integer in
    the data of a node that does not fit 8 bytes. *)
Fixpoint fits_int64 (v : Any) : bool :=
  match v with
  | JInt z => (- 2 ^ 63 <=? z)%Z && (z <? 2 ^ 63)%Z
  | JList l => forallb fits_int64 l
  | JDict d => forallb (λ kv, match kv with (_, x) => fits_int64 x end) d
  | _ => true
  end.

Definition int64_only (workflow : Workflow) : option Exn :=
  if forallb (λ n, forallb (λ kv, fits_int64 kv.2) (map_to_list (n_data n)))
       (w_nodes workflow)
  then None
  else Some (OverflowError "MongoDB can only handle up to 8-byte ints").

(** Request bodies for the examples. *)
Definition renamed_body : Workflow :=
  {| w_id := "w1"; w_name := "renamed"; w_nodes := [transfer];
     w_edges := []; w_created_at := 5; w_updated_at := 5 |}.

Definition moved_body : Workflow :=
  {| w_id := "w2"; w_name := "demo"; w_nodes := [play_hi];
     w_edges := []; w_created_at := 0; w_updated_at := 0 |}.

Definition other_workflow : Workflow :=
  {| w_id := "w2"; w_name := "other"; w_nodes := []; w_edges := [];
     w_created_at := 100; w_updated_at := 100 |}.

(** [delete_one({"id": workflow_id})]: drops the first document with that id;
    [None] when nothing matched. *)
Fixpoint delete_one (workflow_id : string) (l : list Workflow) : option (list Workflow) :=
  match l with
  | [] => None
  | wf :: l' => if String.eqb (w_id wf) workflow_id then Some l'
                else cons wf <$> delete_one workflow_id l'
  end.

(** The value [tt] stands for [{"success": True}]. *)
Definition delete_workflow (workflow_id : string) : M unit :=
  λ w, match delete_one workflow_id (workflows w) with
       | Some l => (Ok tt, set_workflows l w)
       | None => (Raise (HTTPException 404 "Workflow not found"), w)
       end.

(** ** WebSocket endpoint *)

(** The frame [{"type": "echo", "data": message, "timestamp": ..}]. *)
Record Echo := {
  echo_data : Any;
  echo_timestamp : N
}.

Section websocket_endpoint.

(** [json.loads]: the decoded value, or the [ValueError] it raises
    ([JSONDecodeError] is one). *)
Variable json_loads : string → Result Any.

(** The [while True] loop, run on what the client does: it sends text
    frames, each after a wait of its own, and goes away after a last wait.
    [await websocket.receive_text()] resumes when the next frame is there,
    or raises [WebSocketDisconnect] when the client has gone: the loop is
    then left with [None]; it is left with [Some e] when [json.loads] raises
    [e]. The echo frames sent so far are kept with their arrival times; a
    send takes the peer's [latency], as [send_json] does. *)
Fixpoint receive_loop (websocket : WebSocket) (incoming : list (N * string))
    (goes_away_after : N) (w : World) (echoed : list (N * Echo))
  : option Exn * World * list (N * Echo) :=
  match incoming with
  | [] => (None, set_now (now w + goes_away_after) w, echoed)
  | (wait, data) :: incoming' =>
      let received := now w + wait in
      match json_loads data with
      | Ok message =>
          let t := received + latency w websocket in
          receive_loop websocket incoming' goes_away_after (set_now t w)
            (echoed ++ [(t, {| echo_data := message; echo_timestamp := received |})])
      | Raise e => (Some e, set_now received w, echoed)
      end
  end.

(** [except WebSocketDisconnect] is the only handler: any other exception
    leaves the endpoint without [manager.disconnect], also the one [connect]
    raises. Once the function is left, by return or by exception, the
    server closes the socket: what is sent to a handle that is still
    registered then is outside what [send_json] describes. *)
Definition websocket_endpoint (websocket : WebSocket) (workflow_id : string)
    (incoming : list (N * string)) (goes_away_after : N) (w : World)
  : Result unit * World * list (N * Echo) :=
  match ConnectionManager.connect websocket workflow_id w with
  | (Raise e, w1) => (Raise e, w1, [])
  | (Ok _, w1) =>
      match receive_loop websocket incoming goes_away_after w1 [] with
      | (None, w2, echoed) =>
          let '(r, w3) := ConnectionManager.disconnect websocket workflow_id w2 in
          (r, w3, echoed)
      | (Some e, w2, echoed) => (Raise e, w2, echoed)
      end
  end.

End websocket_endpoint.

(** The time a client spends before its frames. *)
Definition waits (incoming : list (N * string)) : N :=
  foldr (λ frame acc, frame.1 + acc) 0 incoming.

(** A decoder that knows two literals, for the examples. *)
Definition loads_literal (data : string) : Result Any :=
  if String.eqb data "null" then Ok JNull
  else if String.eqb data "true" then Ok (JBool true)
  else Raise (ValueError "Expecting value: line 1 column 1 (char 0)").

(** ** Voice integration *)

(** A document of [db.calls]. *)
Record Call := {
  c_id : string;
  c_workflow_id : string;
  c_phone_number : string;
  c_status : string;
  c_created_at : N
}.

(** The ["data"] of the dict [initiate_call] returns. *)
Record CallData := {
  cd_call_id : string;
  cd_status : string;
  cd_phone_number : string
}.

(** [initiate_call], with [db.calls] threaded next to the world. *)
Definition initiate_call (phone_number workflow_id : string) (calls : list Call)
  : M (CallData * list Call) :=
  workflow ← find_one workflow_id;
  match workflow with
  | None => raise (HTTPException 404 "Workflow not found")
  | Some _ =>
      u ← uuid4;
      let call_id := "call_" +:+ u in
      t ← datetime_now;
      ret ({| cd_call_id := call_id; cd_status := "initiated";
              cd_phone_number := phone_number |},
           calls ++ [{| c_id := call_id; c_workflow_id := workflow_id;
                        c_phone_number := phone_number; c_status := "initiated";
                        c_created_at := t |}])
  end.

(** * Properties *)

(** ** Fan-out to the subscribers of a workflow *)

Lemma send_all_cons c conns message w :
  send_all (c :: conns) message w = send_all conns message (send_json c message w).2.
Proof. reflexivity. Qed.

Lemma send_all_ok conns message w : (send_all conns message w).1 = Ok tt.
Proof.
  revert w. induction conns as [|c conns IH]; intros w; [reflexivity|].
  rewrite send_all_cons. apply IH.
Qed.

Lemma same_backend_refl w : same_backend w w.
Proof. by split. Qed.

Lemma same_backend_trans w1 w2 w3 :
  same_backend w1 w2 → same_backend w2 w3 → same_backend w1 w3.
Proof. intros [] []. split; congruence. Qed.

Lemma send_all_same_backend conns message w :
  same_backend w (send_all conns message w).2.
Proof.
  revert w. induction conns as [|c conns IH]; intros w; [apply same_backend_refl|].
  rewrite send_all_cons. eapply same_backend_trans; [|apply IH]. by split.
Qed.

Lemma total_latency_ext w w' conns :
  latency w' = latency w → total_latency w' conns = total_latency w conns.
Proof. intros E. unfold total_latency. by rewrite E. Qed.

Lemma total_latency_app w l1 l2 :
  total_latency w (l1 ++ l2) = total_latency w l1 + total_latency w l2.
Proof.
  induction l1 as [|c l1 IH]; simpl; [done|].
  unfold total_latency in *; simpl. rewrite IH. lia.
Qed.

Lemma send_all_now conns message w :
  now (send_all conns message w).2 = now w + total_latency w conns.
Proof.
  revert w. induction conns as [|c conns IH]; intros w.
  - simpl. unfold total_latency. simpl. lia.
  - rewrite send_all_cons, IH. rewrite (total_latency_ext w); [|done].
    unfold total_latency; simpl. lia.
Qed.

Lemma send_all_inbox_notin conns message w ws :
  ws ∉ conns → inbox_of (send_all conns message w).2 ws = inbox_of w ws.
Proof.
  revert w. induction conns as [|c conns IH]; intros w Hn; [done|].
  apply not_elem_of_cons in Hn as [Hne Hn].
  rewrite send_all_cons, IH by done.
  unfold inbox_of; simpl. by rewrite lookup_insert_ne.
Qed.

(** The frame reaches a peer once every earlier send has completed. *)
Lemma send_all_inbox_split pre post message w ws :
  ws ∉ pre → ws ∉ post →
  inbox_of (send_all (pre ++ ws :: post) message w).2 ws
  = inbox_of w ws ++ [(now w + total_latency w pre + latency w ws, message)].
Proof.
  revert w. induction pre as [|c pre IH]; intros w Hpre Hpost.
  - simpl app. rewrite send_all_cons, send_all_inbox_notin by done.
    unfold inbox_of at 1; simpl. rewrite lookup_insert_eq. simpl.
    unfold total_latency; simpl. by rewrite N.add_0_r.
  - apply not_elem_of_cons in Hpre as [Hne Hpre].
    rewrite <- app_comm_cons, send_all_cons, IH by done.
    rewrite (total_latency_ext _ w) by done.
    unfold inbox_of at 1; simpl. rewrite lookup_insert_ne by done.
    fold (inbox_of w ws). do 3 f_equal.
    unfold total_latency; simpl. lia.
Qed.

Lemma broadcast_run workflow_id message w :
  ConnectionManager.broadcast_to_workflow workflow_id message w
  = (Ok tt, broadcast_world workflow_id message w).
Proof.
  unfold broadcast_world, ConnectionManager.broadcast_to_workflow.
  destruct (active_connections w !! workflow_id) as [conns|]; [|done].
  fold (send_all conns message).
  rewrite (surjective_pairing (send_all conns message w)) at 1.
  by rewrite send_all_ok.
Qed.

Lemma broadcast_world_eq workflow_id message w :
  broadcast_world workflow_id message w
  = (send_all (subscribers w workflow_id) message w).2.
Proof.
  unfold broadcast_world, ConnectionManager.broadcast_to_workflow, subscribers.
  by destruct (active_connections w !! workflow_id).
Qed.

Lemma broadcast_same_backend workflow_id message w :
  same_backend w (broadcast_world workflow_id message w).
Proof. rewrite broadcast_world_eq. apply send_all_same_backend. Qed.

Lemma broadcast_now workflow_id message w :
  now (broadcast_world workflow_id message w)
  = now w + total_latency w (subscribers w workflow_id).
Proof. rewrite broadcast_world_eq. apply send_all_now. Qed.

Lemma broadcast_subscribers workflow_id wid' message w :
  subscribers (broadcast_world workflow_id message w) wid' = subscribers w wid'.
Proof.
  unfold subscribers. by rewrite (sb_active_connections _ _ (broadcast_same_backend _ _ _)).
Qed.

Lemma broadcast_events_notin workflow_id message w ws :
  ws ∉ subscribers w workflow_id →
  events (broadcast_world workflow_id message w) ws = events w ws.
Proof.
  intros H. unfold events. by rewrite broadcast_world_eq, send_all_inbox_notin.
Qed.

Lemma broadcast_events_in workflow_id message w ws :
  NoDup (subscribers w workflow_id) → ws ∈ subscribers w workflow_id →
  events (broadcast_world workflow_id message w) ws = events w ws ++ [message].
Proof.
  intros Hnd Hin. apply list_elem_of_split in Hin as (pre & post & E).
  rewrite E in Hnd. apply NoDup_app in Hnd as (_ & Hpre & Hpost).
  apply NoDup_cons in Hpost as [Hpost _].
  unfold events. rewrite broadcast_world_eq, E, send_all_inbox_split.
  - by rewrite fmap_app.
  - intros Hin. by apply (Hpre ws); [|left].
  - done.
Qed.

(** ** The paths through [execute_node] *)

Lemma bind_run {A B} (c : M A) (k : A → M B) w :
  (c ≫= k) w = match c w with
               | (Ok a, w') => k a w'
               | (Raise e, w') => (Raise e, w')
               end.
Proof. reflexivity. Qed.

Ltac run := repeat (cbv beta iota; rewrite ?bind_run, ?broadcast_run).

Ltac enter_try node_id workflow_id node w Hwf Hnode Hstep :=
  unfold execute_node; rewrite bind_run; unfold find_one;
  fold (find_workflow w workflow_id); rewrite Hwf, Hnode;
  rewrite bind_run; unfold try_except, datetime_now; run;
  change (NODE_EXECUTIONS_inc (n_type node) ?x)
    with (Ok tt, started node_id workflow_id (n_type node) w);
  run; unfold EXECUTION_TIME_time; rewrite Hstep; run.

Lemma execute_node_ok node_id workflow_id input_data w workflow node result w3 :
  find_workflow w workflow_id = Some workflow →
  find_node node_id (w_nodes workflow) = Some node →
  run_step node (started node_id workflow_id (n_type node) w) = (Ok result, w3) →
  execute_node node_id workflow_id input_data w
  = (Ok (Success result),
     broadcast_world workflow_id (complete_message node_id workflow_id result (now w3))
       (set_redis (<[cache_key node_id :=
                       {| re_value := {| cr_result := result; cr_timestamp := now w3 |};
                          re_expires_at := now w3 + 3600 |}]> (redis w3))
          (timed (n_type node) (now (started node_id workflow_id (n_type node) w)) w3))).
Proof.
  intros Hwf Hnode Hstep. enter_try node_id workflow_id node w Hwf Hnode Hstep.
  unfold redis_setex at 1. run. reflexivity.
Qed.

Lemma execute_node_raise node_id workflow_id input_data w workflow node e w3 :
  find_workflow w workflow_id = Some workflow →
  find_node node_id (w_nodes workflow) = Some node →
  run_step node (started node_id workflow_id (n_type node) w) = (Raise e, w3) →
  execute_node node_id workflow_id input_data w
  = (Ok (if negb (String.eqb (str e) "") then Failure (str e) else Success JNull),
     broadcast_world workflow_id (error_message node_id workflow_id (str e) (now w3))
       (set_sentry (sentry w3 ++ [e])
          (set_error_log
             (error_log w3 ++ ["Error executing node " +:+ node_id +:+ ": " +:+ str e])
             (timed (n_type node) (now (started node_id workflow_id (n_type node) w)) w3)))).
Proof.
  intros Hwf Hnode Hstep. enter_try node_id workflow_id node w Hwf Hnode Hstep.
  unfold logger_error at 1. run. unfold sentry_capture_exception at 1. run.
  unfold ret. by destruct (negb (str e =? "")%string).
Qed.

Lemma execute_node_no_workflow node_id workflow_id input_data w :
  find_workflow w workflow_id = None →
  execute_node node_id workflow_id input_data w
  = (Raise (HTTPException 404 "Workflow not found"), w).
Proof.
  intros Hwf. unfold execute_node. rewrite bind_run. unfold find_one.
  fold (find_workflow w workflow_id). by rewrite Hwf.
Qed.

Lemma execute_node_no_node node_id workflow_id input_data w workflow :
  find_workflow w workflow_id = Some workflow →
  find_node node_id (w_nodes workflow) = None →
  execute_node node_id workflow_id input_data w
  = (Raise (HTTPException 404 "Node not found"), w).
Proof.
  intros Hwf Hnode. unfold execute_node. rewrite bind_run. unfold find_one.
  fold (find_workflow w workflow_id). by rewrite Hwf, Hnode.
Qed.

(** *** The step executors *)

Lemma run_step_startCall node w :
  n_type node = "startCall" →
  run_step node w
  = (Ok (JDict [("call_sid", JStr ("CA" +:+ uuid_pool w (uuid_drawn w)));
                ("status", JStr "initiated");
                ("from", JStr "+15551234567"); ("to", JStr "+15559876543")]),
     set_uuid_drawn (S (uuid_drawn w)) w).
Proof. intros E. unfold run_step. by rewrite E. Qed.

Lemma run_step_playAudio node w :
  n_type node = "playAudio" →
  run_step node w
  = (Ok (JDict [("audio_id", JStr ("audio_" +:+ uuid_pool w (uuid_drawn w)));
                ("message", default (JStr "Hello, this is a default message.")
                                    (n_data node !! "audioMessage"));
                ("status", JStr "generated")]),
     set_now (now w + 1) (set_uuid_drawn (S (uuid_drawn w)) w)).
Proof. intros E. unfold run_step. by rewrite E. Qed.

Lemma run_step_aiNode node w :
  n_type node = "aiNode" → truthy (flow_id_of node) = true →
  run_step node w
  = (Ok (JDict [("response", JStr "This is a simulated AI response");
                ("confidence", JFloat float_0_95); ("intent", JStr "greeting")]),
     set_now (now w + 2) w).
Proof.
  intros E T. unfold run_step. rewrite E. simpl.
  fold (flow_id_of node). by rewrite T.
Qed.

Lemma run_step_aiNode_no_flow node w :
  n_type node = "aiNode" → truthy (flow_id_of node) = false →
  run_step node w = (Raise (ValueError no_flow_id), w).
Proof.
  intros E T. unfold run_step. rewrite E. simpl.
  fold (flow_id_of node). by rewrite T.
Qed.

Lemma run_step_endCall node w :
  n_type node = "endCall" →
  run_step node w
  = (Ok (JDict [("status", JStr "completed"); ("duration", JInt 120);
                ("outcome", JStr "success")]), w).
Proof. intros E. unfold run_step. by rewrite E. Qed.

Lemma run_step_unknown node w :
  ¬ known_type (n_type node) → run_step node w = (Ok JNull, w).
Proof.
  intros U. unfold run_step, known_type in *.
  repeat match goal with
         | |- context [String.eqb ?a ?b] =>
             destruct (String.eqb_spec a b); [tauto|]
         end.
  reflexivity.
Qed.

(** The only exception a step raises is the missing flow ID. *)
Lemma run_step_raises node w e w' :
  run_step node w = (Raise e, w') →
  e = ValueError no_flow_id ∧ w' = w ∧
  n_type node = "aiNode" ∧ truthy (flow_id_of node) = false.
Proof.
  unfold run_step.
  repeat match goal with
         | |- context [String.eqb ?a ?b] => destruct (String.eqb_spec a b)
         end; try discriminate.
  fold (flow_id_of node). destruct (truthy (flow_id_of node)); simpl; [discriminate|].
  unfold raise. intros [= <- <-]. done.
Qed.

(** What a step leaves alone. *)
Lemma run_step_frame node w r w' :
  run_step node w = (r, w') →
  workflows w' = workflows w ∧ redis w' = redis w ∧
  active_connections w' = active_connections w ∧ inbox w' = inbox w ∧
  latency w' = latency w ∧ now w ≤ now w'.
Proof.
  unfold run_step.
  repeat match goal with
         | |- context [String.eqb ?a ?b] => destruct (String.eqb_spec a b)
         end;
    try (fold (flow_id_of node); destruct (truthy (flow_id_of node)); simpl);
    intros [= <- <-]; simpl; repeat split; lia.
Qed.
(** *** Observations on the two outcomes of the [try] block *)

Lemma started_frame node_id workflow_id node_type w :
  let w2 := started node_id workflow_id node_type w in
  workflows w2 = workflows w ∧ redis w2 = redis w ∧
  active_connections w2 = active_connections w ∧ latency w2 = latency w ∧
  uuid_pool w2 = uuid_pool w ∧ uuid_drawn w2 = uuid_drawn w ∧
  now w2 = now w + total_latency w (subscribers w workflow_id) ∧
  inbox w2 = inbox (broadcast_world workflow_id (start_message node_id workflow_id (now w)) w).
Proof.
  pose proof (broadcast_same_backend workflow_id
                (start_message node_id workflow_id (now w)) w) as [].
  unfold started; simpl. rewrite broadcast_now. done.
Qed.

Lemma step_frame node_id workflow_id w node r w3 :
  run_step node (started node_id workflow_id (n_type node) w) = (r, w3) →
  subscribers w3 workflow_id = subscribers w workflow_id ∧
  latency w3 = latency w ∧ redis w3 = redis w ∧
  now w + total_latency w (subscribers w workflow_id) ≤ now w3.
Proof.
  intros Hstep. apply run_step_frame in Hstep as (_ & Hr & Ha & _ & Hl & Hn).
  destruct (started_frame node_id workflow_id (n_type node) w)
    as (_ & Hr2 & Ha2 & Hl2 & _ & _ & Hn2 & _).
  unfold subscribers in *. rewrite Ha, Ha2, Hl, Hl2, Hr, Hr2, <- Hn2. done.
Qed.

Lemma step_events node_id workflow_id w node r w3 ws :
  run_step node (started node_id workflow_id (n_type node) w) = (r, w3) →
  (NoDup (subscribers w workflow_id) → ws ∈ subscribers w workflow_id →
     events w3 ws = events w ws ++ [start_message node_id workflow_id (now w)]) ∧
  (ws ∉ subscribers w workflow_id → events w3 ws = events w ws).
Proof.
  intros Hstep. apply run_step_frame in Hstep as (_ & _ & _ & Hin & _).
  destruct (started_frame node_id workflow_id (n_type node) w)
    as (_ & _ & _ & _ & _ & _ & _ & Hin2).
  unfold events at 1 3, inbox_of. rewrite Hin, Hin2. split.
  - intros. by apply broadcast_events_in.
  - intros. by apply broadcast_events_notin.
Qed.

(** The [try] block ran to its end. *)
Lemma outcome_ok node_id workflow_id input_data w workflow node result w3 :
  find_workflow w workflow_id = Some workflow →
  find_node node_id (w_nodes workflow) = Some node →
  run_step node (started node_id workflow_id (n_type node) w) = (Ok result, w3) →
  let w' := (execute_node node_id workflow_id input_data w).2 in
  let subs := subscribers w workflow_id in
  (execute_node node_id workflow_id input_data w).1 = Ok (Success result) ∧
  redis w' = <[cache_key node_id :=
                 {| re_value := {| cr_result := result; cr_timestamp := now w3 |};
                    re_expires_at := now w3 + 3600 |}]> (redis w) ∧
  now w' = now w3 + total_latency w subs ∧
  now w + total_latency w subs ≤ now w3 ∧
  (∀ ws, NoDup subs → ws ∈ subs →
     events w' ws = events w ws ++
       [start_message node_id workflow_id (now w);
        complete_message node_id workflow_id result (now w3)]) ∧
  (∀ ws, ws ∉ subs → events w' ws = events w ws).
Proof.
  intros Hwf Hnode Hstep. cbv zeta.
  rewrite (execute_node_ok _ _ input_data _ _ _ _ _ Hwf Hnode Hstep).
  destruct (step_frame _ _ _ _ _ _ Hstep) as (Hs & Hl & Hr & Hn).
  set (w5 := set_redis _ _).
  assert (Hs5 : subscribers w5 workflow_id = subscribers w workflow_id) by exact Hs.
  simpl. split; [done|].
  split; [by rewrite (sb_redis _ _ (broadcast_same_backend _ _ _)); simpl; rewrite Hr|].
  split; [by rewrite broadcast_now, Hs5; unfold total_latency; simpl; rewrite Hl|].
  split; [done|]. split.
  - intros ws Hnd Hin. rewrite broadcast_events_in by by rewrite Hs5.
    change (events w5 ws) with (events w3 ws).
    rewrite (proj1 (step_events _ _ _ _ _ _ ws Hstep)) by done. by rewrite <- app_assoc.
  - intros ws Hnin. rewrite broadcast_events_notin by by rewrite Hs5.
    change (events w5 ws) with (events w3 ws).
    by apply (step_events _ _ _ _ _ _ ws Hstep).
Qed.

(** The [try] block was left by an exception. *)
Lemma outcome_raise node_id workflow_id input_data w workflow node e w3 :
  find_workflow w workflow_id = Some workflow →
  find_node node_id (w_nodes workflow) = Some node →
  run_step node (started node_id workflow_id (n_type node) w) = (Raise e, w3) →
  let w' := (execute_node node_id workflow_id input_data w).2 in
  let subs := subscribers w workflow_id in
  (execute_node node_id workflow_id input_data w).1
    = Ok (if negb (String.eqb (str e) "") then Failure (str e) else Success JNull) ∧
  redis w' = redis w ∧
  now w' = now w3 + total_latency w subs ∧
  (∀ ws, NoDup subs → ws ∈ subs →
     events w' ws = events w ws ++
       [start_message node_id workflow_id (now w);
        error_message node_id workflow_id (str e) (now w3)]) ∧
  (∀ ws, ws ∉ subs → events w' ws = events w ws).
Proof.
  intros Hwf Hnode Hstep. cbv zeta.
  rewrite (execute_node_raise _ _ input_data _ _ _ _ _ Hwf Hnode Hstep).
  destruct (step_frame _ _ _ _ _ _ Hstep) as (Hs & Hl & Hr & Hn).
  set (w5 := set_sentry _ _).
  assert (Hs5 : subscribers w5 workflow_id = subscribers w workflow_id) by exact Hs.
  simpl. split; [done|].
  split; [by rewrite (sb_redis _ _ (broadcast_same_backend _ _ _)); simpl; rewrite Hr|].
  split; [by rewrite broadcast_now, Hs5; unfold total_latency; simpl; rewrite Hl|].
  split.
  - intros ws Hnd Hin. rewrite broadcast_events_in by by rewrite Hs5.
    change (events w5 ws) with (events w3 ws).
    rewrite (proj1 (step_events _ _ _ _ _ _ ws Hstep)) by done. by rewrite <- app_assoc.
  - intros ws Hnin. rewrite broadcast_events_notin by by rewrite Hs5.
    change (events w5 ws) with (events w3 ws).
    by apply (step_events _ _ _ _ _ _ ws Hstep).
Qed.

(** ** Lookup failures *)

Lemma find_by_key_absent {A} (key : A → string) (k : string) (l : list A) :
  (∀ x, x ∈ l → key x ≠ k) → List.find (λ x, String.eqb (key x) k) l = None.
Proof.
  induction l as [|x l IH]; intros H; [done|]. simpl.
  destruct (String.eqb_spec (key x) k) as [E|_].
  - destruct (H x); [left | done].
  - apply IH. intros y Hy. apply H. by right.
Qed.

Lemma find_workflow_absent w workflow_id :
  (∀ wf, wf ∈ workflows w → w_id wf ≠ workflow_id) →
  find_workflow w workflow_id = None.
Proof. apply find_by_key_absent. Qed.

Lemma find_node_absent node_id nodes :
  (∀ n, n ∈ nodes → n_id n ≠ node_id) → find_node node_id nodes = None.
Proof. apply find_by_key_absent. Qed.

(** C1, as stated, fails: for a workflow ID that is not in the store the
    handler does not return the failure outcome ([success: false] with an
    error message); it raises. *)
Lemma not_found_is_not_a_failure_outcome :
  (∀ wf, wf ∈ workflows demo_world → w_id wf ≠ "w0") ∧
  ¬ ∃ error, (execute_node "n1" "w0" ∅ demo_world).1 = Ok (Failure error).
Proof.
  split.
  - intros wf Hin. apply list_elem_of_singleton in Hin as ->. done.
  - intros [error H]. vm_compute in H. discriminate.
Qed.

(** C1, amended: when the workflow ID is not in the store, or the node ID is
    not among the nodes of the workflow found, [execute_node] raises
    [HTTPException] with status 404 and detail "Workflow not found", resp.
    "Node not found"; it leaves the world as it was, so no subscriber
    receives an event, nothing is cached and nothing is counted. *)
Theorem not_found_raises_404 node_id workflow_id input_data w :
  (∀ wf, wf ∈ workflows w → w_id wf ≠ workflow_id) ∨
  (∃ wf, find_workflow w workflow_id = Some wf ∧
         ∀ n, n ∈ w_nodes wf → n_id n ≠ node_id) →
  execute_node node_id workflow_id input_data w
  = (Raise (HTTPException 404
              (match find_workflow w workflow_id with
               | None => "Workflow not found"
               | Some _ => "Node not found"
               end)), w) ∧
  ∀ ws, events (execute_node node_id workflow_id input_data w).2 ws = events w ws.
Proof.
  intros [Hw | (wf & Hwf & Hn)].
  - apply find_workflow_absent in Hw.
    rewrite execute_node_no_workflow by done. by rewrite Hw.
  - apply find_node_absent in Hn.
    rewrite (execute_node_no_node _ _ _ _ wf) by done. by rewrite Hwf.
Qed.

Lemma not_found_raises_404_witness :
  execute_node "n9" "w1" ∅ demo_world
  = (Raise (HTTPException 404 "Node not found"), demo_world) ∧
  ∀ ws, events (execute_node "n9" "w1" ∅ demo_world).2 ws = events demo_world ws.
Proof.
  apply (not_found_raises_404 "n9" "w1" ∅ demo_world).
  right. exists demo_workflow. split; [reflexivity|].
  intros n Hin. simpl in Hin.
  repeat (apply elem_of_cons in Hin as [-> | Hin]; [done|]).
  by apply elem_of_nil in Hin.
Defined.

(** ** The AI node without a flow ID *)

Lemma no_flow_id_outcome node_id workflow_id input_data w workflow node :
  find_workflow w workflow_id = Some workflow →
  find_node node_id (w_nodes workflow) = Some node →
  n_type node = "aiNode" → truthy (flow_id_of node) = false →
  let w' := (execute_node node_id workflow_id input_data w).2 in
  let subs := subscribers w workflow_id in
  (execute_node node_id workflow_id input_data w).1 = Ok (Failure no_flow_id) ∧
  redis w' = redis w ∧
  ∀ ws, NoDup subs → ws ∈ subs →
    events w' ws = events w ws ++
      [start_message node_id workflow_id (now w);
       error_message node_id workflow_id no_flow_id (now w + total_latency w subs)].
Proof.
  intros Hwf Hnode Hty Hflow.
  pose proof (run_step_aiNode_no_flow node
                (started node_id workflow_id (n_type node) w) Hty Hflow) as Hstep.
  destruct (outcome_raise node_id workflow_id input_data w workflow node _ _
              Hwf Hnode Hstep) as (Hr & Hc & _ & Hev & _).
  destruct (started_frame node_id workflow_id (n_type node) w)
    as (_ & _ & _ & _ & _ & _ & Hnow & _).
  simpl. rewrite <- Hnow. done.
Qed.

(** C2: an [aiNode] whose data has no ["flowId"] key makes [execute_node]
    return [{"success": False, "error": "No flow ID specified for AI Node"}];
    each subscriber of the workflow receives the start event (type
    "node_execution_start", status "running") and then the error event
    (type "node_execution_error", status "error", carrying the message),
    nothing else, and the result cache is left as it was. *)
Theorem ai_node_without_flow_id_fails node_id workflow_id input_data w workflow node :
  find_workflow w workflow_id = Some workflow →
  find_node node_id (w_nodes workflow) = Some node →
  n_type node = "aiNode" →
  n_data node !! "flowId" = None →
  let w' := (execute_node node_id workflow_id input_data w).2 in
  let subs := subscribers w workflow_id in
  (execute_node node_id workflow_id input_data w).1
    = Ok (Failure "No flow ID specified for AI Node") ∧
  redis w' = redis w ∧
  ∀ ws, NoDup subs → ws ∈ subs →
    events w' ws = events w ws ++
      [{| m_type := "node_execution_start";
          m_data := [("node_id", JStr node_id); ("workflow_id", JStr workflow_id);
                     ("status", JStr "running")];
          m_timestamp := now w |};
       {| m_type := "node_execution_error";
          m_data := [("node_id", JStr node_id); ("workflow_id", JStr workflow_id);
                     ("status", JStr "error");
                     ("error", JStr "No flow ID specified for AI Node")];
          m_timestamp := now w + total_latency w subs |}].
Proof.
  intros Hwf Hnode Hty Hflow.
  apply (no_flow_id_outcome _ _ _ _ workflow node); try done.
  unfold flow_id_of. by rewrite Hflow.
Qed.

Lemma NoDup_demo_subscribers : NoDup (subscribers demo_world "w1").
Proof.
  change (NoDup [7%nat; 8%nat]).
  apply NoDup_cons; split; [|apply NoDup_singleton].
  intros H%list_elem_of_singleton. discriminate.
Qed.

Lemma ai_node_without_flow_id_fails_witness :
  (execute_node "n2" "w1" ∅ demo_world).1
    = Ok (Failure "No flow ID specified for AI Node") ∧
  redis (execute_node "n2" "w1" ∅ demo_world).2 = redis demo_world ∧
  events (execute_node "n2" "w1" ∅ demo_world).2 8%nat
  = [{| m_type := "node_execution_start";
        m_data := [("node_id", JStr "n2"); ("workflow_id", JStr "w1");
                   ("status", JStr "running")];
        m_timestamp := 100 |};
     {| m_type := "node_execution_error";
        m_data := [("node_id", JStr "n2"); ("workflow_id", JStr "w1");
                   ("status", JStr "error");
                   ("error", JStr "No flow ID specified for AI Node")];
        m_timestamp := 100 |}].
Proof.
  destruct (ai_node_without_flow_id_fails "n2" "w1" ∅ demo_world
              demo_workflow ai_without_flow)
    as (Hr & Hc & Hev); try reflexivity.
  split; [exact Hr|]. split; [exact Hc|].
  apply (Hev 8%nat NoDup_demo_subscribers).
  apply list_elem_of_further, list_elem_of_here.
Defined.

(** C10: a ["flowId"] that is present but falsy (the empty string, [None],
    [0], [False], an empty list or dict) is treated as no flow ID at all:
    the same failure, the same two events (the start event with status
    "running", then the error event with status "error" and the message),
    no cache write. *)
Theorem ai_node_with_falsy_flow_id_fails node_id workflow_id input_data w workflow node v :
  find_workflow w workflow_id = Some workflow →
  find_node node_id (w_nodes workflow) = Some node →
  n_type node = "aiNode" →
  n_data node !! "flowId" = Some v →
  truthy v = false →
  let w' := (execute_node node_id workflow_id input_data w).2 in
  let subs := subscribers w workflow_id in
  (execute_node node_id workflow_id input_data w).1
    = Ok (Failure "No flow ID specified for AI Node") ∧
  redis w' = redis w ∧
  ∀ ws, NoDup subs → ws ∈ subs →
    events w' ws = events w ws ++
      [{| m_type := "node_execution_start";
          m_data := [("node_id", JStr node_id); ("workflow_id", JStr workflow_id);
                     ("status", JStr "running")];
          m_timestamp := now w |};
       {| m_type := "node_execution_error";
          m_data := [("node_id", JStr node_id); ("workflow_id", JStr workflow_id);
                     ("status", JStr "error");
                     ("error", JStr "No flow ID specified for AI Node")];
          m_timestamp := now w + total_latency w subs |}].
Proof.
  intros Hwf Hnode Hty Hflow Hv.
  apply (no_flow_id_outcome _ _ _ _ workflow node); try done.
  unfold flow_id_of. by rewrite Hflow.
Qed.

Lemma ai_node_with_falsy_flow_id_fails_witness :
  (execute_node "n3" "w1" ∅ demo_world).1
    = Ok (Failure "No flow ID specified for AI Node") ∧
  redis (execute_node "n3" "w1" ∅ demo_world).2 = redis demo_world ∧
  events (execute_node "n3" "w1" ∅ demo_world).2 7%nat
  = [{| m_type := "node_execution_start";
        m_data := [("node_id", JStr "n3"); ("workflow_id", JStr "w1");
                   ("status", JStr "running")];
        m_timestamp := 100 |};
     {| m_type := "node_execution_error";
        m_data := [("node_id", JStr "n3"); ("workflow_id", JStr "w1");
                   ("status", JStr "error");
                   ("error", JStr "No flow ID specified for AI Node")];
        m_timestamp := 100 |}].
Proof.
  destruct (ai_node_with_falsy_flow_id_fails "n3" "w1" ∅ demo_world
              demo_workflow ai_empty_flow (JStr ""))
    as (Hr & Hc & Hev); try reflexivity.
  split; [exact Hr|]. split; [exact Hc|].
  apply (Hev 7%nat NoDup_demo_subscribers), list_elem_of_here.
Defined.

(** ** Successful executions *)

(** C3: for a node of a known type (an [aiNode] with a flow ID specified)
    found in a workflow found, [execute_node] returns
    [{"success": True, "data": result}] with the result of that type, and
    each subscriber registered (once) when the call begins receives the
    start event (type "node_execution_start", status "running") and then the
    complete event (type "node_execution_complete", status "completed",
    carrying the result), and nothing else. *)
Theorem known_node_types_succeed node_id workflow_id input_data w workflow node :
  find_workflow w workflow_id = Some workflow →
  find_node node_id (w_nodes workflow) = Some node →
  runnable node →
  let w' := (execute_node node_id workflow_id input_data w).2 in
  let subs := subscribers w workflow_id in
  let u := uuid_pool w (uuid_drawn w) in
  ∃ result t,
    (execute_node node_id workflow_id input_data w).1 = Ok (Success result) ∧
    now w ≤ t ∧
    (∀ ws, NoDup subs → ws ∈ subs →
       events w' ws = events w ws ++
         [{| m_type := "node_execution_start";
             m_data := [("node_id", JStr node_id); ("workflow_id", JStr workflow_id);
                        ("status", JStr "running")];
             m_timestamp := now w |};
          {| m_type := "node_execution_complete";
             m_data := [("node_id", JStr node_id); ("workflow_id", JStr workflow_id);
                        ("status", JStr "completed"); ("result", result)];
             m_timestamp := t |}]) ∧
    (n_type node = "startCall" →
       result = JDict [("call_sid", JStr ("CA" +:+ u)); ("status", JStr "initiated");
                       ("from", JStr "+15551234567"); ("to", JStr "+15559876543")]) ∧
    (n_type node = "playAudio" →
       result = JDict [("audio_id", JStr ("audio_" +:+ u));
                       ("message", default (JStr "Hello, this is a default message.")
                                           (n_data node !! "audioMessage"));
                       ("status", JStr "generated")]) ∧
    (n_type node = "aiNode" →
       result = JDict [("response", JStr "This is a simulated AI response");
                       ("confidence", JFloat float_0_95);
                       ("intent", JStr "greeting")]) ∧
    (n_type node = "endCall" →
       result = JDict [("status", JStr "completed"); ("duration", JInt 120);
                       ("outcome", JStr "success")]).
Proof.
  intros Hwf Hnode Hrun. simpl.
  set (w2 := started node_id workflow_id (n_type node) w).
  destruct (started_frame node_id workflow_id (n_type node) w)
    as (_ & _ & _ & _ & Hpool & Hdrawn & _ & _). fold w2 in Hpool, Hdrawn.
  destruct Hrun as [E | [E | [[E T] | E]]].
  - pose proof (run_step_startCall node w2 E) as Hstep. rewrite Hpool, Hdrawn in Hstep.
    destruct (outcome_ok node_id workflow_id input_data w workflow node _ _
              Hwf Hnode Hstep) as (Hr & _ & _ & Hle & Hev & _).
    eexists _, _. split; [exact Hr|].
    split; [exact (N.le_trans _ _ _ (N.le_add_r _ _) Hle)|]. split; [exact Hev|].
    repeat split; try done; rewrite E; discriminate.
  - pose proof (run_step_playAudio node w2 E) as Hstep. rewrite Hpool, Hdrawn in Hstep.
    destruct (outcome_ok node_id workflow_id input_data w workflow node _ _
              Hwf Hnode Hstep) as (Hr & _ & _ & Hle & Hev & _).
    eexists _, _. split; [exact Hr|].
    split; [exact (N.le_trans _ _ _ (N.le_add_r _ _) Hle)|]. split; [exact Hev|].
    repeat split; try done; rewrite E; discriminate.
  - pose proof (run_step_aiNode node w2 E T) as Hstep.
    destruct (outcome_ok node_id workflow_id input_data w workflow node _ _
              Hwf Hnode Hstep) as (Hr & _ & _ & Hle & Hev & _).
    eexists _, _. split; [exact Hr|].
    split; [exact (N.le_trans _ _ _ (N.le_add_r _ _) Hle)|]. split; [exact Hev|].
    repeat split; try done; rewrite E; discriminate.
  - pose proof (run_step_endCall node w2 E) as Hstep.
    destruct (outcome_ok node_id workflow_id input_data w workflow node _ _
              Hwf Hnode Hstep) as (Hr & _ & _ & Hle & Hev & _).
    eexists _, _. split; [exact Hr|].
    split; [exact (N.le_trans _ _ _ (N.le_add_r _ _) Hle)|]. split; [exact Hev|].
    repeat split; try done; rewrite E; discriminate.
Qed.

Lemma known_node_types_succeed_witness :
  ∃ result t,
    (execute_node "n5" "w1" ∅ demo_world).1 = Ok (Success result) ∧
    events (execute_node "n5" "w1" ∅ demo_world).2 7%nat
    = [{| m_type := "node_execution_start";
          m_data := [("node_id", JStr "n5"); ("workflow_id", JStr "w1");
                     ("status", JStr "running")];
          m_timestamp := 100 |};
       {| m_type := "node_execution_complete";
          m_data := [("node_id", JStr "n5"); ("workflow_id", JStr "w1");
                     ("status", JStr "completed"); ("result", result)];
          m_timestamp := t |}] ∧
    result = JDict [("response", JStr "This is a simulated AI response");
                    ("confidence", JFloat float_0_95); ("intent", JStr "greeting")].
Proof.
  destruct (known_node_types_succeed "n5" "w1" ∅ demo_world demo_workflow ai_with_flow)
    as (result & t & Hr & _ & Hev & _ & _ & Hai & _);
    [reflexivity | reflexivity | right; right; left; split; reflexivity |].
  exists result, t. split; [exact Hr|]. split.
  - apply (Hev 7%nat NoDup_demo_subscribers), list_elem_of_here.
  - apply Hai. reflexivity.
Defined.

(** C4: a node whose type is none of the four known ones does not make
    [execute_node] fail: the call returns [{"success": True, "data": None}]. *)
Theorem unknown_node_type_succeeds_with_none node_id workflow_id input_data w workflow node :
  find_workflow w workflow_id = Some workflow →
  find_node node_id (w_nodes workflow) = Some node →
  n_type node ≠ "startCall" → n_type node ≠ "playAudio" →
  n_type node ≠ "aiNode" → n_type node ≠ "endCall" →
  (execute_node node_id workflow_id input_data w).1 = Ok (Success JNull).
Proof.
  intros Hwf Hnode H1 H2 H3 H4.
  eapply outcome_ok; [done..|].
  apply run_step_unknown. unfold known_type. tauto.
Qed.

Lemma unknown_node_type_succeeds_with_none_witness :
  (execute_node "n4" "w1" ∅ demo_world).1 = Ok (Success JNull).
Proof.
  apply (unknown_node_type_succeeds_with_none "n4" "w1" ∅ demo_world
           demo_workflow transfer); [reflexivity | reflexivity | discriminate..].
Defined.

(** C9: for a node of unknown type the call still writes the cache and still
    publishes: the entry for the node is overwritten with a [None] result
    (TTL 3600), whatever was cached before, and the complete event (type
    "node_execution_complete", status "completed") carries [None] as its
    result. *)
Theorem unknown_node_type_overwrites_cache_with_none node_id workflow_id input_data
    w workflow node :
  find_workflow w workflow_id = Some workflow →
  find_node node_id (w_nodes workflow) = Some node →
  n_type node ≠ "startCall" → n_type node ≠ "playAudio" →
  n_type node ≠ "aiNode" → n_type node ≠ "endCall" →
  let w' := (execute_node node_id workflow_id input_data w).2 in
  let subs := subscribers w workflow_id in
  let t := now w + total_latency w subs in
  redis w' !! ("node_result:" +:+ node_id)
    = Some {| re_value := {| cr_result := JNull; cr_timestamp := t |};
              re_expires_at := t + 3600 |} ∧
  ∀ ws, NoDup subs → ws ∈ subs →
    events w' ws = events w ws ++
      [{| m_type := "node_execution_start";
          m_data := [("node_id", JStr node_id); ("workflow_id", JStr workflow_id);
                     ("status", JStr "running")];
          m_timestamp := now w |};
       {| m_type := "node_execution_complete";
          m_data := [("node_id", JStr node_id); ("workflow_id", JStr workflow_id);
                     ("status", JStr "completed"); ("result", JNull)];
          m_timestamp := t |}].
Proof.
  intros Hwf Hnode H1 H2 H3 H4. simpl.
  assert (Hstep : run_step node (started node_id workflow_id (n_type node) w)
                  = (Ok JNull, started node_id workflow_id (n_type node) w)).
  { apply run_step_unknown. unfold known_type. tauto. }
  destruct (outcome_ok node_id workflow_id input_data w workflow node _ _
              Hwf Hnode Hstep) as (_ & Hc & _ & _ & Hev & _).
  destruct (started_frame node_id workflow_id (n_type node) w)
    as (_ & _ & _ & _ & _ & _ & Hnow & _).
  rewrite Hnow in Hc, Hev. split; [|done].
  rewrite Hc. apply lookup_insert_eq.
Qed.

Lemma unknown_node_type_overwrites_cache_with_none_witness :
  redis demo_world !! "node_result:n4" = Some earlier_result ∧
  redis (execute_node "n4" "w1" ∅ demo_world).2 !! "node_result:n4"
    = Some {| re_value := {| cr_result := JNull; cr_timestamp := 100 |};
              re_expires_at := 3700 |} ∧
  events (execute_node "n4" "w1" ∅ demo_world).2 8%nat
    = [{| m_type := "node_execution_start";
          m_data := [("node_id", JStr "n4"); ("workflow_id", JStr "w1");
                     ("status", JStr "running")];
          m_timestamp := 100 |};
       {| m_type := "node_execution_complete";
          m_data := [("node_id", JStr "n4"); ("workflow_id", JStr "w1");
                     ("status", JStr "completed"); ("result", JNull)];
          m_timestamp := 100 |}].
Proof.
  split; [reflexivity|].
  destruct (unknown_node_type_overwrites_cache_with_none "n4" "w1" ∅ demo_world
              demo_workflow transfer) as (Hc & Hev);
    [reflexivity | reflexivity | discriminate..|].
  split; [exact Hc|].
  apply (Hev 8%nat NoDup_demo_subscribers).
  apply list_elem_of_further, list_elem_of_here.
Defined.

(** C5: a [playAudio] node yields [{"success": True, "data": result}] where
    [result] holds the synthetic audio identifier, the node's
    ["audioMessage"] as ["message"] ("Hello, this is a default message." when
    the key is absent) and status "generated"; the step sleeps for one time
    unit between the two broadcasts. *)
Theorem play_audio_generates_message node_id workflow_id input_data w workflow node :
  find_workflow w workflow_id = Some workflow →
  find_node node_id (w_nodes workflow) = Some node →
  n_type node = "playAudio" →
  let w' := (execute_node node_id workflow_id input_data w).2 in
  let subs := subscribers w workflow_id in
  ∃ message,
    let result := JDict [("audio_id", JStr ("audio_" +:+ uuid_pool w (uuid_drawn w)));
                         ("message", message); ("status", JStr "generated")] in
    (execute_node node_id workflow_id input_data w).1 = Ok (Success result) ∧
    (∀ v, n_data node !! "audioMessage" = Some v → message = v) ∧
    (n_data node !! "audioMessage" = None →
       message = JStr "Hello, this is a default message.") ∧
    now w' = now w + 1 + 2 * total_latency w subs ∧
    ∀ ws, NoDup subs → ws ∈ subs →
      events w' ws = events w ws ++
        [start_message node_id workflow_id (now w);
         complete_message node_id workflow_id result
           (now w + total_latency w subs + 1)].
Proof.
  intros Hwf Hnode Hty. simpl.
  set (w2 := started node_id workflow_id (n_type node) w).
  destruct (started_frame node_id workflow_id (n_type node) w)
    as (_ & _ & _ & _ & Hpool & Hdrawn & Hnow & _). fold w2 in Hpool, Hdrawn, Hnow.
  pose proof (run_step_playAudio node w2 Hty) as Hstep.
  destruct (outcome_ok node_id workflow_id input_data w workflow node _ _
              Hwf Hnode Hstep) as (Hr & _ & Hclock & _ & Hev & _).
  cbn [now set_now] in Hclock, Hev. rewrite Hnow in Hclock, Hev. rewrite Hpool, Hdrawn in Hr, Hev.
  eexists. split; [exact Hr|].
  split; [by intros v ->|]. split; [by intros ->|]. split; [lia | exact Hev].
Qed.

Lemma play_audio_generates_message_witness :
  let result := JDict [("audio_id", JStr "audio_uuid-0"); ("message", JStr "Hi");
                       ("status", JStr "generated")] in
  (execute_node "n1" "w1" ∅ demo_world).1 = Ok (Success result) ∧
  now (execute_node "n1" "w1" ∅ demo_world).2 = 101 ∧
  events (execute_node "n1" "w1" ∅ demo_world).2 7%nat
  = [start_message "n1" "w1" 100; complete_message "n1" "w1" result 101].
Proof.
  destruct (play_audio_generates_message "n1" "w1" ∅ demo_world demo_workflow play_hi)
    as (message & Hr & Hsome & _ & Hclock & Hev); [reflexivity..|].
  pose proof (Hsome (JStr "Hi") eq_refl) as ->.
  split; [exact Hr|]. split; [exact Hclock|].
  apply (Hev 7%nat NoDup_demo_subscribers), list_elem_of_here.
Defined.

(** ** The result cache *)

Lemma execute_node_success_inv node_id workflow_id input_data w result :
  (execute_node node_id workflow_id input_data w).1 = Ok (Success result) →
  ∃ workflow node w3,
    find_workflow w workflow_id = Some workflow ∧
    find_node node_id (w_nodes workflow) = Some node ∧
    run_step node (started node_id workflow_id (n_type node) w) = (Ok result, w3).
Proof.
  intros H.
  destruct (find_workflow w workflow_id) as [workflow|] eqn:Hwf;
    [|by rewrite execute_node_no_workflow in H].
  destruct (find_node node_id (w_nodes workflow)) as [node|] eqn:Hnode;
    [|by rewrite (execute_node_no_node _ _ _ _ workflow) in H].
  destruct (run_step node (started node_id workflow_id (n_type node) w))
    as [[result' | e] w3] eqn:Hstep.
  - rewrite (execute_node_ok _ _ input_data _ _ _ _ _ Hwf Hnode Hstep) in H.
    injection H as ->. by exists workflow, node, w3.
  - rewrite (execute_node_raise _ _ input_data _ _ _ _ _ Hwf Hnode Hstep) in H.
    apply run_step_raises in Hstep as (-> & _). discriminate.
Qed.

(** C6: a successful [execute_node] stores its result under
    ["node_result:" + node_id] with an expiry 3600 after the write, whatever
    was under that key before and leaving the other keys alone; from then on
    a [Get] of that key returns the stored payload while fewer than 3600 time
    units have passed since the write, and a miss afterwards. *)
Theorem successful_execute_caches_for_3600 node_id workflow_id input_data w result :
  (execute_node node_id workflow_id input_data w).1 = Ok (Success result) →
  let w' := (execute_node node_id workflow_id input_data w).2 in
  let key := "node_result:" +:+ node_id in
  ∃ t, now w ≤ t ∧ t ≤ now w' ∧
    let payload := {| cr_result := result; cr_timestamp := t |} in
    redis w' !! key = Some {| re_value := payload; re_expires_at := t + 3600 |} ∧
    (∀ k, k ≠ key → redis w' !! k = redis w !! k) ∧
    (∀ τ, τ < t + 3600 → redis_get key (set_now τ w') = (Ok (Some payload), set_now τ w')) ∧
    (∀ τ, t + 3600 ≤ τ → redis_get key (set_now τ w') = (Ok None, set_now τ w')).
Proof.
  intros H. apply execute_node_success_inv in H as (workflow & node & w3 & Hwf & Hnode & Hstep).
  destruct (outcome_ok node_id workflow_id input_data w workflow node _ _
              Hwf Hnode Hstep) as (_ & Hc & Hclock & Hle & _).
  simpl. exists (now w3). fold (cache_key node_id).
  split; [lia|]. split; [lia|].
  assert (Hlook : redis (execute_node node_id workflow_id input_data w).2
                    !! cache_key node_id = Some _)
    by (rewrite Hc; apply lookup_insert_eq).
  split; [exact Hlook|].
  split; [by intros k Hk; rewrite Hc, lookup_insert_ne|].
  split; intros τ Hτ; unfold redis_get; simpl; rewrite Hlook; simpl;
    case_decide; (done || lia).
Qed.

Lemma successful_execute_caches_for_3600_witness :
  let w' := (execute_node "n1" "w1" ∅ demo_world).2 in
  let payload :=
    {| cr_result := JDict [("audio_id", JStr "audio_uuid-0"); ("message", JStr "Hi");
                           ("status", JStr "generated")];
       cr_timestamp := 101 |} in
  (redis_get "node_result:n1" (set_now 3700 w')).1 = Ok (Some payload) ∧
  (redis_get "node_result:n1" (set_now 3701 w')).1 = Ok None.
Proof.
  destruct (successful_execute_caches_for_3600 "n1" "w1" ∅ demo_world _ eq_refl)
    as (t & _ & _ & Hc & _ & Hhit & Hmiss).
  assert (t = 101) as -> by (vm_compute in Hc; congruence).
  split.
  - assert (Hlt : 3700 < 101 + 3600) by lia. exact (f_equal fst (Hhit 3700 Hlt)).
  - assert (Hge : 101 + 3600 ≤ 3701) by lia. exact (f_equal fst (Hmiss 3701 Hge)).
Defined.

(** ** The subscriber registry *)

Lemma list_remove_None x l : x ∉ l → ConnectionManager.list_remove x l = None.
Proof.
  induction l as [|y l IH]; intros H; [done|].
  apply not_elem_of_cons in H as [Hne Hl]. simpl.
  destruct (decide (y = x)); [congruence|]. by rewrite IH.
Qed.

Lemma list_remove_first x pre post :
  x ∉ pre → ConnectionManager.list_remove x (pre ++ x :: post) = Some (pre ++ post).
Proof.
  induction pre as [|y pre IH]; intros H; simpl.
  - by rewrite decide_True.
  - apply not_elem_of_cons in H as [Hne Hpre].
    rewrite decide_False by congruence. by rewrite IH.
Qed.

(** A handle registered once: the first [disconnect] removes it, the second
    one finds the list without it and [list.remove] raises. *)
Lemma second_disconnect_raises websocket workflow_id w pre post :
  active_connections w !! workflow_id = Some (pre ++ websocket :: post) →
  websocket ∉ pre → websocket ∉ post →
  let w1 := (ConnectionManager.disconnect websocket workflow_id w).2 in
  ConnectionManager.disconnect websocket workflow_id w = (Ok tt, w1) ∧
  subscribers w1 workflow_id = pre ++ post ∧
  ConnectionManager.disconnect websocket workflow_id w1
  = (Raise (ValueError "list.remove(x): x not in list"), w1).
Proof.
  intros Hreg Hpre Hpost. unfold ConnectionManager.disconnect at 1 2.
  rewrite Hreg, list_remove_first by done. simpl.
  split; [done|]. unfold subscribers, ConnectionManager.disconnect; simpl.
  rewrite lookup_insert_eq. split; [done|].
  rewrite list_remove_None; [done|].
  intros [H|H]%elem_of_app; contradiction.
Qed.

(** The two ways [connect] goes. *)
Lemma connect_fresh websocket workflow_id w :
  websocket ∉ accepted w →
  ConnectionManager.connect websocket workflow_id w
  = (Ok tt,
     set_active_connections
       (<[workflow_id := subscribers w workflow_id ++ [websocket]]> (active_connections w))
       (set_accepted ({[ websocket ]} ∪ accepted w) w)).
Proof.
  intros H. unfold ConnectionManager.connect. rewrite bind_run.
  unfold accept. by rewrite decide_False.
Qed.

Lemma connect_accepted websocket workflow_id w :
  websocket ∈ accepted w →
  ∃ msg, ConnectionManager.connect websocket workflow_id w = (Raise (RuntimeError msg), w).
Proof.
  intros H. unfold ConnectionManager.connect. rewrite bind_run.
  unfold accept. rewrite decide_True by done. eauto.
Qed.

(** A fresh handle keeps the registered handles distinct. *)
Lemma connect_fresh_NoDup websocket workflow_id w :
  NoDup (subscribers w workflow_id) → websocket ∉ subscribers w workflow_id →
  NoDup (subscribers (ConnectionManager.connect websocket workflow_id w).2 workflow_id).
Proof.
  intros Hnd Hfresh. destruct (decide (websocket ∈ accepted w)) as [Hacc|Hacc].
  - destruct (connect_accepted websocket workflow_id w Hacc) as [msg ->]. done.
  - rewrite connect_fresh by done. unfold subscribers at 1; simpl.
    rewrite lookup_insert_eq; simpl.
    apply NoDup_app. split; [done|]. split; [|apply NoDup_singleton].
    intros x Hx ->%list_elem_of_singleton. contradiction.
Qed.

(** C7 fails on the code: [disconnect] is not idempotent. With handle [7]
    registered for ["w1"], the first [disconnect(7, "w1")] removes it; the
    second one raises [ValueError] out of [list.remove] instead of doing
    nothing. *)
Theorem disconnect_twice_raises :
  let w1 := (ConnectionManager.disconnect 7%nat "w1" demo_world).2 in
  subscribers demo_world "w1" = [7%nat; 8%nat] ∧
  ConnectionManager.disconnect 7%nat "w1" demo_world = (Ok tt, w1) ∧
  subscribers w1 "w1" = [8%nat] ∧
  ConnectionManager.disconnect 7%nat "w1" w1
  = (Raise (ValueError "list.remove(x): x not in list"), w1).
Proof.
  split; [reflexivity|].
  apply (second_disconnect_raises 7%nat "w1" demo_world [] [8%nat]).
  - reflexivity.
  - apply not_elem_of_nil.
  - intros H%list_elem_of_singleton. discriminate.
Qed.

(** ** Fan-out and slow subscribers *)

(** C8, as stated, fails: delivery and the latency of [execute_node] depend
    on how fast a subscriber takes its frames. With subscribers [7; 8] of
    ["w1"], letting [7] take 1000 time units per frame instead of none moves
    the end of the call from 101 to 2101 and the arrival of the two events
    at [8] from [100; 101] to [1100; 2101]. *)
Lemma slow_subscriber_delays_execute_and_peers :
  let fast := demo_world_with 7%nat 0 in
  let slow := demo_world_with 7%nat 1000 in
  now (execute_node "n1" "w1" ∅ slow).2 ≠ now (execute_node "n1" "w1" ∅ fast).2 ∧
  arrivals (execute_node "n1" "w1" ∅ slow).2 8%nat
  ≠ arrivals (execute_node "n1" "w1" ∅ fast).2 8%nat.
Proof. split; vm_compute; discriminate. Qed.

(** C8, amended: [broadcast_to_workflow] sends to the subscribers of the
    workflow one after the other in registration order, awaiting each send:
    a subscriber has the frame once every subscriber before it and it itself
    have taken theirs, and the publisher resumes once all have. There is no
    queue, nothing is dropped and nobody is disconnected: the registry is
    left as it was. *)
Theorem broadcast_awaits_each_subscriber_in_turn workflow_id message w pre ws post :
  subscribers w workflow_id = pre ++ ws :: post →
  ws ∉ pre → ws ∉ post →
  let w' := (ConnectionManager.broadcast_to_workflow workflow_id message w).2 in
  (ConnectionManager.broadcast_to_workflow workflow_id message w).1 = Ok tt ∧
  inbox_of w' ws
    = inbox_of w ws ++ [(now w + total_latency w pre + latency w ws, message)] ∧
  now w' = now w + total_latency w pre + latency w ws + total_latency w post ∧
  active_connections w' = active_connections w.
Proof.
  intros Hsubs Hpre Hpost. simpl. fold (broadcast_world workflow_id message w).
  rewrite broadcast_run. split; [done|].
  rewrite broadcast_now, broadcast_world_eq, Hsubs.
  split; [by apply send_all_inbox_split|]. split.
  - rewrite total_latency_app. unfold total_latency; simpl. lia.
  - apply send_all_same_backend.
Qed.

Lemma broadcast_awaits_each_subscriber_in_turn_witness :
  let slow := demo_world_with 7%nat 1000 in
  let message := start_message "n1" "w1" 100 in
  let w' := (ConnectionManager.broadcast_to_workflow "w1" message slow).2 in
  inbox_of w' 8%nat = [(1100, message)] ∧ now w' = 1100.
Proof.
  destruct (broadcast_awaits_each_subscriber_in_turn "w1"
              (start_message "n1" "w1" 100) (demo_world_with 7%nat 1000)
              [7%nat] 8%nat [])
    as (_ & Hin & Hnow & _).
  - reflexivity.
  - intros H%list_elem_of_singleton. discriminate.
  - apply not_elem_of_nil.
  - split; [exact Hin | exact Hnow].
Defined.


(** * Further properties *)

(** ** The connection manager *)

Lemma list_remove_None_inv x l : ConnectionManager.list_remove x l = None → x ∉ l.
Proof.
  induction l as [|y l IH]; simpl; [intros _; apply not_elem_of_nil|].
  destruct (decide (y = x)); [discriminate|].
  destruct (ConnectionManager.list_remove x l); [discriminate|].
  intros _. apply not_elem_of_cons. split; [congruence | by apply IH].
Qed.

Lemma list_remove_NoDup x l l' :
  ConnectionManager.list_remove x l = Some l' → NoDup l → NoDup l' ∧ l' ⊆ l.
Proof.
  revert l'. induction l as [|y l IH]; intros l'; simpl; [discriminate|].
  intros H [Hy Hnd]%NoDup_cons. destruct (decide (y = x)) as [->|Hne].
  - injection H as <-. split; [done|]. intros z Hz. by right.
  - destruct (ConnectionManager.list_remove x l) as [l0|]; [|discriminate].
    injection H as <-. destruct (IH l0 eq_refl Hnd) as [Hnd0 Hsub].
    split.
    + apply NoDup_cons. split; [|done]. intros Hin. by apply Hy, Hsub.
    + intros z [->|Hz]%elem_of_cons; [left | right; by apply Hsub].
Qed.

Lemma disconnect_first websocket workflow_id w pre post :
  active_connections w !! workflow_id = Some (pre ++ websocket :: post) →
  websocket ∉ pre →
  let w' := (ConnectionManager.disconnect websocket workflow_id w).2 in
  (ConnectionManager.disconnect websocket workflow_id w).1 = Ok tt ∧
  subscribers w' workflow_id = pre ++ post ∧
  (∀ other, other ≠ workflow_id → subscribers w' other = subscribers w other) ∧
  inbox w' = inbox w ∧ redis w' = redis w ∧ workflows w' = workflows w ∧ now w' = now w.
Proof.
  intros Hreg Hpre. unfold ConnectionManager.disconnect.
  rewrite Hreg, list_remove_first by done. simpl.
  unfold subscribers; simpl. rewrite lookup_insert_eq.
  repeat split; try done. intros other Hne. by rewrite lookup_insert_ne.
Qed.

(** X1: [disconnect] raises exactly when the workflow has a list of
    connections and the handle is not in it, and then changes nothing; for a
    workflow that never had a connection, or a handle that is in the list,
    it returns normally. *)
Theorem disconnect_raises_iff_handle_missing websocket workflow_id w :
  ((ConnectionManager.disconnect websocket workflow_id w).1
     = Raise (ValueError "list.remove(x): x not in list")
   ↔ ∃ conns, active_connections w !! workflow_id = Some conns ∧ websocket ∉ conns) ∧
  ((ConnectionManager.disconnect websocket workflow_id w).1 = Ok tt
   ↔ active_connections w !! workflow_id = None ∨
     websocket ∈ subscribers w workflow_id) ∧
  ((ConnectionManager.disconnect websocket workflow_id w).1 ≠ Ok tt →
   (ConnectionManager.disconnect websocket workflow_id w).2 = w).
Proof.
  unfold ConnectionManager.disconnect, subscribers.
  destruct (active_connections w !! workflow_id) as [conns|] eqn:Hreg; simpl.
  - destruct (ConnectionManager.list_remove websocket conns) as [conns'|] eqn:Hrm; simpl.
    + assert (websocket ∈ conns).
      { destruct (decide (websocket ∈ conns)) as [|Hn]; [done|].
        apply list_remove_None in Hn. congruence. }
      repeat split; try done.
      * intros (c & [= <-] & Hn). contradiction.
      * by right.
    + apply list_remove_None_inv in Hrm.
      repeat split; try done.
      * intros _. by exists conns.
      * intros [? | ?]; [discriminate | contradiction].
  - repeat split; try done.
    + intros (c & ? & _). discriminate.
    + by left.
Qed.

(** X2: [disconnect] drops the first registration of the handle and only
    that: the other handles of the workflow keep their order, the lists of
    the other workflows, the inboxes, the cache and the clock are as before. *)
Theorem disconnect_removes_first_registration websocket workflow_id w pre post :
  active_connections w !! workflow_id = Some (pre ++ websocket :: post) →
  websocket ∉ pre →
  let w' := (ConnectionManager.disconnect websocket workflow_id w).2 in
  (ConnectionManager.disconnect websocket workflow_id w).1 = Ok tt ∧
  subscribers w' workflow_id = pre ++ post ∧
  (∀ other, other ≠ workflow_id → subscribers w' other = subscribers w other) ∧
  inbox w' = inbox w ∧ redis w' = redis w ∧ workflows w' = workflows w ∧ now w' = now w.
Proof. apply disconnect_first. Qed.

Lemma disconnect_removes_first_registration_witness :
  let w' := (ConnectionManager.disconnect 7%nat "w1" demo_world).2 in
  subscribers w' "w1" = [8%nat] ∧ inbox w' = inbox demo_world.
Proof.
  destruct (disconnect_removes_first_registration 7%nat "w1" demo_world [] [8%nat])
    as (_ & Hs & _ & Hi & _).
  - reflexivity.
  - apply not_elem_of_nil.
  - split; [exact Hs | exact Hi].
Defined.

Lemma not_yet_accepted_9 : 9%nat ∉ accepted demo_world.
Proof.
  change (9%nat ∉ ({[ 7%nat; 8%nat ]} : gset nat)).
  rewrite elem_of_union, !elem_of_singleton. intros [H|H]; discriminate.
Qed.

(** X3: connecting a socket whose handshake is still to be done, and which
    is not registered for the workflow, and disconnecting it again gives
    every workflow the list of handles it had. The workflow's key stays in
    the registry, also when it was not there before: the list left behind
    is then empty. *)
Theorem connect_then_disconnect_restores websocket workflow_id w :
  websocket ∉ accepted w →
  websocket ∉ subscribers w workflow_id →
  let w1 := (ConnectionManager.connect websocket workflow_id w).2 in
  let w2 := (ConnectionManager.disconnect websocket workflow_id w1).2 in
  (ConnectionManager.connect websocket workflow_id w).1 = Ok tt ∧
  (ConnectionManager.disconnect websocket workflow_id w1).1 = Ok tt ∧
  (∀ other, subscribers w2 other = subscribers w other) ∧
  active_connections w2 !! workflow_id = Some (subscribers w workflow_id).
Proof.
  intros Hnew Hfresh. cbv zeta. rewrite connect_fresh by done. cbn [fst snd].
  set (w1 := set_active_connections _ _).
  assert (Hreg : active_connections w1 !! workflow_id
                 = Some (subscribers w workflow_id ++ websocket :: []))
    by apply lookup_insert_eq.
  destruct (disconnect_first _ _ _ _ _ Hreg Hfresh) as (Hok & Hs & Hother & _).
  split; [done|]. split; [done|]. rewrite app_nil_r in Hs. split.
  - intros other. destruct (decide (other = workflow_id)) as [->|Hne]; [done|].
    rewrite Hother by done. unfold subscribers, w1; simpl.
    by rewrite lookup_insert_ne.
  - unfold ConnectionManager.disconnect. rewrite Hreg.
    rewrite list_remove_first by done. simpl. rewrite lookup_insert_eq.
    by rewrite app_nil_r.
Qed.

Lemma connect_then_disconnect_restores_witness :
  let w1 := (ConnectionManager.connect 9%nat "w2" demo_world).2 in
  let w2 := (ConnectionManager.disconnect 9%nat "w2" w1).2 in
  active_connections demo_world !! "w2" = None ∧
  subscribers w2 "w1" = [7%nat; 8%nat] ∧
  active_connections w2 !! "w2" = Some [].
Proof.
  destruct (connect_then_disconnect_restores 9%nat "w2" demo_world not_yet_accepted_9)
    as (_ & _ & Hs & Hkey).
  - apply not_elem_of_nil.
  - split; [reflexivity|]. split; [exact (Hs "w1") | exact Hkey].
Defined.

Ltac not_listed :=
  rewrite ?elem_of_cons, ?elem_of_nil;
  let H := fresh in intros H; repeat destruct H as [H|H]; (discriminate || done).

Lemma subscribers_demo_world workflow_id :
  subscribers demo_world workflow_id
  = if decide (workflow_id = "w1") then [7%nat; 8%nat] else [].
Proof.
  unfold subscribers, demo_world, demo_world_with; simpl.
  case_decide as E; [by rewrite E, lookup_singleton_eq|].
  by rewrite lookup_singleton_ne.
Qed.

Lemma NoDup_demo_world workflow_id : NoDup (subscribers demo_world workflow_id).
Proof.
  rewrite subscribers_demo_world. case_decide; [|apply NoDup_nil_2].
  apply NoDup_cons; split; [|apply NoDup_singleton]. not_listed.
Qed.

(** X4: the registry keeps the handles of each workflow pairwise distinct:
    it stays so when a handle not yet registered for the workflow is
    connected, and whatever is disconnected. *)
Theorem registry_keeps_handles_distinct websocket workflow_id w :
  (∀ wid, NoDup (subscribers w wid)) →
  (websocket ∉ subscribers w workflow_id →
   ∀ wid, NoDup (subscribers (ConnectionManager.connect websocket workflow_id w).2 wid)) ∧
  (∀ wid, NoDup (subscribers (ConnectionManager.disconnect websocket workflow_id w).2 wid)).
Proof.
  intros Hnd. split.
  - intros Hfresh wid. destruct (decide (wid = workflow_id)) as [->|Hne].
    + by apply connect_fresh_NoDup.
    + destruct (decide (websocket ∈ accepted w)) as [Hacc|Hacc].
      * destruct (connect_accepted websocket workflow_id w Hacc) as [msg ->]. apply Hnd.
      * rewrite connect_fresh by done. unfold subscribers at 1; simpl.
        rewrite lookup_insert_ne by done. apply Hnd.
  - intros wid. unfold ConnectionManager.disconnect.
    destruct (active_connections w !! workflow_id) as [conns|] eqn:Hreg; [|apply Hnd].
    destruct (ConnectionManager.list_remove websocket conns) as [conns'|] eqn:Hrm;
      [|apply Hnd].
    unfold subscribers; simpl. destruct (decide (wid = workflow_id)) as [->|Hne].
    + rewrite lookup_insert_eq; simpl.
      apply (list_remove_NoDup _ _ _ Hrm). specialize (Hnd workflow_id).
      unfold subscribers in Hnd. by rewrite Hreg in Hnd.
    + rewrite lookup_insert_ne by done. apply Hnd.
Qed.

Lemma registry_keeps_handles_distinct_witness :
  NoDup (subscribers (ConnectionManager.connect 9%nat "w1" demo_world).2 "w1") ∧
  NoDup (subscribers (ConnectionManager.disconnect 8%nat "w1" demo_world).2 "w1").
Proof.
  destruct (registry_keeps_handles_distinct 9%nat "w1" demo_world NoDup_demo_world)
    as [Hc _].
  destruct (registry_keeps_handles_distinct 8%nat "w1" demo_world NoDup_demo_world)
    as [_ Hd].
  split; [apply Hc | apply Hd].
  rewrite subscribers_demo_world. simpl. not_listed.
Defined.

Lemma send_all_events conns message w ws :
  events (send_all conns message w).2 ws
  = events w ws ++ replicate (length (filter (λ c, c = ws) conns)) message.
Proof.
  revert w. induction conns as [|c conns IH]; intros w.
  - simpl. by rewrite app_nil_r.
  - rewrite send_all_cons, IH. unfold events at 1, inbox_of at 1; simpl.
    rewrite filter_cons. destruct (decide (c = ws)) as [->|Hne].
    + rewrite lookup_insert_eq; simpl. rewrite fmap_app; simpl.
      fold (events w ws). by rewrite <- app_assoc.
    + rewrite lookup_insert_ne by done. done.
Qed.

Lemma broadcast_events_count workflow_id message w ws :
  events (broadcast_world workflow_id message w) ws
  = events w ws ++
    replicate (length (filter (λ c, c = ws) (subscribers w workflow_id))) message.
Proof. rewrite broadcast_world_eq. apply send_all_events. Qed.

(** X5: a broadcast hands a peer the message once for each time its handle
    is registered for the workflow, after what it had received: nothing for
    a handle that is not registered there (subscribers of other workflows
    included), twice for a handle registered twice. *)
Theorem broadcast_delivers_once_per_registration workflow_id message w ws :
  events (ConnectionManager.broadcast_to_workflow workflow_id message w).2 ws
  = events w ws ++
    replicate (length (filter (λ c, c = ws) (subscribers w workflow_id))) message.
Proof. apply broadcast_events_count. Qed.

(** X6: once a handle is disconnected, a broadcast to its workflow no longer
    reaches it, and every other handle of the workflow still gets the
    message. *)
Theorem unsubscribed_handle_receives_nothing websocket workflow_id message w :
  NoDup (subscribers w workflow_id) →
  websocket ∈ subscribers w workflow_id →
  let w1 := (ConnectionManager.disconnect websocket workflow_id w).2 in
  let w2 := (ConnectionManager.broadcast_to_workflow workflow_id message w1).2 in
  events w2 websocket = events w websocket ∧
  ∀ ws, ws ≠ websocket → ws ∈ subscribers w workflow_id →
    events w2 ws = events w ws ++ [message].
Proof.
  intros Hnd Hin. cbv zeta.
  destruct (list_elem_of_split _ _ Hin) as (pre & post & E).
  rewrite E in Hnd. pose proof Hnd as Hnd'.
  apply NoDup_app in Hnd as (Hndpre & Hpre & Hpost).
  apply NoDup_cons in Hpost as [Hpost Hndpost].
  assert (Hnpre : websocket ∉ pre) by (intros H; by apply (Hpre websocket); [|left]).
  assert (Hreg : active_connections w !! workflow_id = Some (pre ++ websocket :: post)).
  { unfold subscribers in E. destruct (active_connections w !! workflow_id); simpl in E.
    - by rewrite E.
    - by destruct pre. }
  destruct (disconnect_first _ _ _ _ _ Hreg Hnpre) as (_ & Hs & _ & Hi & _).
  set (w1 := (ConnectionManager.disconnect websocket workflow_id w).2) in *.
  fold (broadcast_world workflow_id message w1).
  assert (Hev : ∀ ws, events w1 ws = events w ws)
    by (intros ws; unfold events, inbox_of; by rewrite Hi).
  assert (Hnd1 : NoDup (subscribers w1 workflow_id)).
  { rewrite Hs. apply NoDup_app. split; [done|]. split; [|done].
    intros x Hx Hx'. apply (Hpre x Hx). by right. }
  split.
  - rewrite broadcast_events_notin, Hev; [done|].
    rewrite Hs. intros [H|H]%elem_of_app; contradiction.
  - intros ws Hne Hws. rewrite broadcast_events_in, Hev; [done..|].
    rewrite Hs. rewrite E in Hws.
    apply elem_of_app in Hws as [H|[->|H]%elem_of_cons]; [|done|];
      apply elem_of_app; [by left | by right].
Qed.

Lemma unsubscribed_handle_receives_nothing_witness :
  let message := start_message "n1" "w1" 100 in
  let w1 := (ConnectionManager.disconnect 7%nat "w1" demo_world).2 in
  let w2 := (ConnectionManager.broadcast_to_workflow "w1" message w1).2 in
  events w2 7%nat = [] ∧ events w2 8%nat = [message].
Proof.
  destruct (unsubscribed_handle_receives_nothing 7%nat "w1"
              (start_message "n1" "w1" 100) demo_world
              NoDup_demo_subscribers (list_elem_of_here _ _)) as [H7 H8].
  split; [exact H7|]. apply (H8 8%nat); [discriminate|].
  apply list_elem_of_further, list_elem_of_here.
Defined.

Lemma registrations_notin (ws : WebSocket) (conns : list WebSocket) :
  ws ∉ conns → length (filter (λ c, c = ws) conns) = 0%nat.
Proof.
  induction conns as [|c conns IH]; intros H; [done|].
  apply not_elem_of_cons in H as [Hne H]. rewrite filter_cons.
  rewrite decide_False by congruence. by apply IH.
Qed.

(** X7: a socket that goes through its handshake between two broadcasts to
    a workflow, and was not registered for it, receives the second message
    only. *)
Theorem late_subscriber_misses_earlier_events websocket workflow_id m1 m2 w :
  websocket ∉ accepted w →
  websocket ∉ subscribers w workflow_id →
  let w1 := (ConnectionManager.broadcast_to_workflow workflow_id m1 w).2 in
  let w2 := (ConnectionManager.connect websocket workflow_id w1).2 in
  let w3 := (ConnectionManager.broadcast_to_workflow workflow_id m2 w2).2 in
  (ConnectionManager.connect websocket workflow_id w1).1 = Ok tt ∧
  events w3 websocket = events w websocket ++ [m2].
Proof.
  intros Hnew Hfresh. cbv zeta.
  fold (broadcast_world workflow_id m1 w).
  set (w1 := broadcast_world workflow_id m1 w).
  assert (Hnew1 : websocket ∉ accepted w1)
    by (unfold w1; by rewrite (sb_accepted _ _ (broadcast_same_backend _ _ _))).
  rewrite connect_fresh by done. cbn [fst snd]. split; [done|].
  set (w2 := set_active_connections _ _).
  fold (broadcast_world workflow_id m2 w2).
  assert (Hs2 : subscribers w2 workflow_id = subscribers w workflow_id ++ [websocket]).
  { unfold w2, subscribers at 1; simpl. rewrite lookup_insert_eq; simpl.
    unfold w1. by rewrite broadcast_subscribers. }
  pose proof (registrations_notin _ _ Hfresh) as Hcount.
  rewrite broadcast_events_count, Hs2, filter_app, length_app, Hcount.
  rewrite filter_cons, decide_True by done. simpl.
  change (events w2 websocket) with (events w1 websocket).
  unfold w1. rewrite broadcast_events_count, Hcount. simpl. by rewrite app_nil_r.
Qed.

Lemma late_subscriber_misses_earlier_events_witness :
  let m1 := start_message "n1" "w1" 100 in
  let m2 := start_message "n4" "w1" 100 in
  let w1 := (ConnectionManager.broadcast_to_workflow "w1" m1 demo_world).2 in
  let w2 := (ConnectionManager.connect 9%nat "w1" w1).2 in
  let w3 := (ConnectionManager.broadcast_to_workflow "w1" m2 w2).2 in
  events w3 9%nat = [m2] ∧ events w3 8%nat = [m1; m2].
Proof.
  split; [|reflexivity].
  apply (late_subscriber_misses_earlier_events 9%nat "w1"
           (start_message "n1" "w1" 100) (start_message "n4" "w1" 100) demo_world
           not_yet_accepted_9).
  change (9%nat ∉ [7%nat; 8%nat]). not_listed.
Defined.

(** ** More on [execute_node] *)

Lemma run_step_effect node w r w' :
  run_step node w = (r, w') →
  NODE_EXECUTIONS w' = NODE_EXECUTIONS w ∧ EXECUTION_TIME w' = EXECUTION_TIME w ∧
  error_log w' = error_log w ∧ sentry w' = sentry w ∧ uuid_pool w' = uuid_pool w ∧
  now w' = now w +
    (if String.eqb (n_type node) "playAudio" then 1
     else if String.eqb (n_type node) "aiNode" && truthy (flow_id_of node) then 2
     else 0) ∧
  uuid_drawn w' =
    (if String.eqb (n_type node) "startCall" || String.eqb (n_type node) "playAudio"
     then S (uuid_drawn w) else uuid_drawn w).
Proof.
  unfold run_step.
  repeat match goal with
         | |- context [String.eqb ?a ?b] => destruct (String.eqb_spec a b)
         end;
    try congruence;
    try (fold (flow_id_of node); destruct (truthy (flow_id_of node)); simpl);
    intros [= <- <-]; simpl; repeat split; lia.
Qed.

Lemma started_metrics node_id workflow_id node_type w :
  let w2 := started node_id workflow_id node_type w in
  NODE_EXECUTIONS w2
    = <[node_type := S (default 0%nat (NODE_EXECUTIONS w !! node_type))]> (NODE_EXECUTIONS w) ∧
  EXECUTION_TIME w2 = EXECUTION_TIME w ∧ error_log w2 = error_log w ∧ sentry w2 = sentry w.
Proof.
  pose proof (broadcast_same_backend workflow_id
                (start_message node_id workflow_id (now w)) w) as [].
  unfold started; simpl. by repeat split; congruence.
Qed.

(** The world after the handler got past the two lookups. *)
Lemma execute_node_found_world node_id workflow_id input_data w workflow node r w3 :
  find_workflow w workflow_id = Some workflow →
  find_node node_id (w_nodes workflow) = Some node →
  run_step node (started node_id workflow_id (n_type node) w) = (r, w3) →
  let w' := (execute_node node_id workflow_id input_data w).2 in
  workflows w' = workflows w ∧ active_connections w' = active_connections w ∧
  latency w' = latency w ∧ uuid_pool w' = uuid_pool w ∧ uuid_drawn w' = uuid_drawn w3 ∧
  NODE_EXECUTIONS w'
    = <[n_type node := S (default 0%nat (NODE_EXECUTIONS w !! n_type node))]>
        (NODE_EXECUTIONS w) ∧
  EXECUTION_TIME w'
    = EXECUTION_TIME w ++
      [(n_type node, now w3 - now (started node_id workflow_id (n_type node) w))] ∧
  error_log w'
    = error_log w ++
      match r with
      | Ok _ => []
      | Raise e => ["Error executing node " +:+ node_id +:+ ": " +:+ str e]
      end ∧
  sentry w' = sentry w ++ match r with Ok _ => [] | Raise e => [e] end.
Proof.
  intros Hwf Hnode Hstep. cbv zeta.
  destruct (run_step_frame _ _ _ _ Hstep) as (Hw & _ & Ha & _ & Hl & _).
  destruct (run_step_effect _ _ _ _ Hstep) as (Hne & Het & Hel & Hse & Hup & _ & _).
  destruct (started_frame node_id workflow_id (n_type node) w)
    as (Hw2 & _ & Ha2 & Hl2 & Hup2 & _ & _ & _).
  destruct (started_metrics node_id workflow_id (n_type node) w)
    as (Hne2 & Het2 & Hel2 & Hse2).
  cbv zeta in *.
  destruct r as [result | e].
  - rewrite (execute_node_ok _ _ input_data _ _ _ _ _ Hwf Hnode Hstep).
    match goal with |- context [broadcast_world ?i ?m ?x] =>
      destruct (broadcast_same_backend i m x) end.
    simpl in *. rewrite !app_nil_r. repeat split; congruence.
  - rewrite (execute_node_raise _ _ input_data _ _ _ _ _ Hwf Hnode Hstep).
    match goal with |- context [broadcast_world ?i ?m ?x] =>
      destruct (broadcast_same_backend i m x) end.
    simpl in *. repeat split; congruence.
Qed.

(** X9: every run that gets past the lookups, successful or not, adds one to
    the counter of the node's type and one observation to the histogram.
    The duration observed is the step's own sleep (1 for [playAudio], 2 for
    an [aiNode] with a flow ID, 0 otherwise); the call itself lasts that
    long plus the time the two broadcasts take. *)
Theorem execute_node_counts_and_times_each_run node_id workflow_id input_data
    w workflow node :
  find_workflow w workflow_id = Some workflow →
  find_node node_id (w_nodes workflow) = Some node →
  let w' := (execute_node node_id workflow_id input_data w).2 in
  let d := if String.eqb (n_type node) "playAudio" then 1
           else if String.eqb (n_type node) "aiNode" && truthy (flow_id_of node) then 2
           else 0 in
  NODE_EXECUTIONS w' !! n_type node = Some (S (default 0%nat (NODE_EXECUTIONS w !! n_type node))) ∧
  (∀ other, other ≠ n_type node → NODE_EXECUTIONS w' !! other = NODE_EXECUTIONS w !! other) ∧
  EXECUTION_TIME w' = EXECUTION_TIME w ++ [(n_type node, d)] ∧
  now w' = now w + d + 2 * total_latency w (subscribers w workflow_id).
Proof.
  intros Hwf Hnode. cbv zeta.
  destruct (run_step node (started node_id workflow_id (n_type node) w))
    as [r w3] eqn:Hstep.
  destruct (execute_node_found_world _ _ input_data _ _ _ _ _ Hwf Hnode Hstep)
    as (_ & _ & _ & _ & _ & Hne & Het & _).
  destruct (run_step_effect _ _ _ _ Hstep) as (_ & _ & _ & _ & _ & Hnow & _).
  destruct (started_frame node_id workflow_id (n_type node) w)
    as (_ & _ & _ & _ & _ & _ & Hnow2 & _). cbv zeta in Hnow2.
  rewrite Hne, Het, lookup_insert_eq. split; [done|].
  split; [by intros other Hother; rewrite lookup_insert_ne|].
  split; [do 3 f_equal; lia|].
  destruct r as [result | e].
  - destruct (outcome_ok _ _ input_data _ _ _ _ _ Hwf Hnode Hstep) as (_ & _ & -> & _). lia.
  - destruct (outcome_raise _ _ input_data _ _ _ _ _ Hwf Hnode Hstep) as (_ & _ & -> & _). lia.
Qed.

Lemma execute_node_counts_and_times_each_run_witness :
  let w' := (execute_node "n2" "w1" ∅ (demo_world_with 7%nat 5)).2 in
  NODE_EXECUTIONS w' !! "aiNode" = Some 1%nat ∧
  EXECUTION_TIME w' = [("aiNode", 0)] ∧ now w' = 110.
Proof.
  destruct (execute_node_counts_and_times_each_run "n2" "w1" ∅
              (demo_world_with 7%nat 5) demo_workflow ai_without_flow eq_refl eq_refl)
    as (Hc & _ & Ht & Hn).
  split; [exact Hc|]. split; [exact Ht | exact Hn].
Defined.

(** X10: a failed run is reported exactly once to each sink: the log gets
    the line "Error executing node <node_id>: <error>" and Sentry gets the
    [ValueError]; a successful run writes to neither. *)
Theorem execute_node_reports_failures_only node_id workflow_id input_data
    w workflow node :
  find_workflow w workflow_id = Some workflow →
  find_node node_id (w_nodes workflow) = Some node →
  let w' := (execute_node node_id workflow_id input_data w).2 in
  (∀ result, (execute_node node_id workflow_id input_data w).1 = Ok (Success result) →
     error_log w' = error_log w ∧ sentry w' = sentry w) ∧
  (∀ error, (execute_node node_id workflow_id input_data w).1 = Ok (Failure error) →
     error_log w' = error_log w ++ ["Error executing node " +:+ node_id +:+ ": " +:+ error] ∧
     sentry w' = sentry w ++ [ValueError error]).
Proof.
  intros Hwf Hnode. cbv zeta.
  destruct (run_step node (started node_id workflow_id (n_type node) w))
    as [r w3] eqn:Hstep.
  destruct (execute_node_found_world _ _ input_data _ _ _ _ _ Hwf Hnode Hstep)
    as (_ & _ & _ & _ & _ & _ & _ & Hel & Hse).
  destruct r as [result | e].
  - destruct (outcome_ok _ _ input_data _ _ _ _ _ Hwf Hnode Hstep) as (Hr & _).
    rewrite Hr, Hel, Hse, !app_nil_r. split; [done|]. discriminate.
  - destruct (outcome_raise _ _ input_data _ _ _ _ _ Hwf Hnode Hstep) as (Hr & _).
    apply run_step_raises in Hstep as (-> & _).
    rewrite Hr, Hel, Hse. split; [discriminate|]. by intros error [= <-].
Qed.

Lemma execute_node_reports_failures_only_witness :
  let w' := (execute_node "n2" "w1" ∅ demo_world).2 in
  error_log w' = ["Error executing node n2: No flow ID specified for AI Node"] ∧
  sentry w' = [ValueError "No flow ID specified for AI Node"].
Proof.
  destruct (execute_node_reports_failures_only "n2" "w1" ∅ demo_world
              demo_workflow ai_without_flow eq_refl eq_refl) as [_ Hfail].
  exact (Hfail "No flow ID specified for AI Node" eq_refl).
Defined.

Lemma execute_node_frame node_id workflow_id input_data w :
  let w' := (execute_node node_id workflow_id input_data w).2 in
  workflows w' = workflows w ∧ active_connections w' = active_connections w ∧
  latency w' = latency w ∧ uuid_pool w' = uuid_pool w ∧
  ∀ ws, ws ∉ subscribers w workflow_id → events w' ws = events w ws.
Proof.
  cbv zeta.
  destruct (find_workflow w workflow_id) as [workflow|] eqn:Hwf;
    [|by rewrite execute_node_no_workflow].
  destruct (find_node node_id (w_nodes workflow)) as [node|] eqn:Hnode;
    [|by rewrite (execute_node_no_node _ _ _ _ workflow)].
  destruct (run_step node (started node_id workflow_id (n_type node) w))
    as [r w3] eqn:Hstep.
  destruct (execute_node_found_world _ _ input_data _ _ _ _ _ Hwf Hnode Hstep)
    as (Hw & Ha & Hl & Hp & _).
  repeat (split; [done|]).
  destruct r as [result | e].
  - by destruct (outcome_ok _ _ input_data _ _ _ _ _ Hwf Hnode Hstep) as (_ & _ & _ & _ & _ & H).
  - by destruct (outcome_raise _ _ input_data _ _ _ _ _ Hwf Hnode Hstep) as (_ & _ & _ & _ & H).
Qed.

(** X11: [execute_node] only reads the workflow collection and the
    subscriber registry: whatever the arguments and whatever the outcome,
    both are the same after the call. *)
Theorem execute_node_reads_store_and_registry_only node_id workflow_id input_data w :
  workflows (execute_node node_id workflow_id input_data w).2 = workflows w ∧
  active_connections (execute_node node_id workflow_id input_data w).2
  = active_connections w.
Proof.
  destruct (execute_node_frame node_id workflow_id input_data w) as (Hw & Ha & _).
  by split.
Qed.

(** X12: a run publishes to the subscribers of its own workflow only: a
    handle that is not registered for [workflow_id] receives nothing,
    whatever the outcome. *)
Theorem execute_node_publishes_to_own_workflow_only node_id workflow_id input_data w ws :
  ws ∉ subscribers w workflow_id →
  events (execute_node node_id workflow_id input_data w).2 ws = events w ws.
Proof. apply execute_node_frame. Qed.

Lemma execute_node_publishes_to_own_workflow_only_witness :
  events (execute_node "n1" "w1" ∅ demo_world).2 9%nat = [].
Proof.
  apply (execute_node_publishes_to_own_workflow_only "n1" "w1" ∅ demo_world 9%nat).
  change (9%nat ∉ [7%nat; 8%nat]). not_listed.
Defined.

(** X13: the handler draws one uuid for a [startCall] and for a [playAudio]
    node and none otherwise, not-found and failed calls included. *)
Theorem execute_node_draws_one_uuid_per_identifier node_id workflow_id input_data w :
  uuid_drawn (execute_node node_id workflow_id input_data w).2
  = match find_workflow w workflow_id with
    | Some workflow =>
        match find_node node_id (w_nodes workflow) with
        | Some node =>
            if String.eqb (n_type node) "startCall" || String.eqb (n_type node) "playAudio"
            then S (uuid_drawn w) else uuid_drawn w
        | None => uuid_drawn w
        end
    | None => uuid_drawn w
    end.
Proof.
  destruct (find_workflow w workflow_id) as [workflow|] eqn:Hwf;
    [|by rewrite execute_node_no_workflow].
  destruct (find_node node_id (w_nodes workflow)) as [node|] eqn:Hnode;
    [|by rewrite (execute_node_no_node _ _ _ _ workflow)].
  destruct (run_step node (started node_id workflow_id (n_type node) w))
    as [r w3] eqn:Hstep.
  destruct (execute_node_found_world _ _ input_data _ _ _ _ _ Hwf Hnode Hstep)
    as (_ & _ & _ & _ & -> & _).
  destruct (run_step_effect _ _ _ _ Hstep) as (_ & _ & _ & _ & _ & _ & ->).
  destruct (started_frame node_id workflow_id (n_type node) w)
    as (_ & _ & _ & _ & _ & Hd & _). cbv zeta in Hd. by rewrite Hd.
Qed.

Lemma runnable_step node w :
  runnable node → ∃ result w3, run_step node w = (Ok result, w3).
Proof.
  intros [E | [E | [[E T] | E]]].
  - eexists _, _. by apply run_step_startCall.
  - eexists _, _. by apply run_step_playAudio.
  - eexists _, _. by apply run_step_aiNode.
  - eexists _, _. by apply run_step_endCall.
Qed.

(** X14: nothing is memoised. Running the same runnable node twice in a row
    succeeds twice; each subscriber receives a start and a complete event
    for the first run and then a start and a complete event for the second,
    and the second start is stamped with the time the first call ended. *)
Theorem execute_node_twice_runs_twice node_id workflow_id input_data w workflow node :
  find_workflow w workflow_id = Some workflow →
  find_node node_id (w_nodes workflow) = Some node →
  runnable node →
  let w1 := (execute_node node_id workflow_id input_data w).2 in
  let w2 := (execute_node node_id workflow_id input_data w1).2 in
  let subs := subscribers w workflow_id in
  ∃ r1 r2 t1 t2,
    (execute_node node_id workflow_id input_data w).1 = Ok (Success r1) ∧
    (execute_node node_id workflow_id input_data w1).1 = Ok (Success r2) ∧
    ∀ ws, NoDup subs → ws ∈ subs →
      events w2 ws = events w ws ++
        [{| m_type := "node_execution_start";
            m_data := [("node_id", JStr node_id); ("workflow_id", JStr workflow_id);
                       ("status", JStr "running")];
            m_timestamp := now w |};
         {| m_type := "node_execution_complete";
            m_data := [("node_id", JStr node_id); ("workflow_id", JStr workflow_id);
                       ("status", JStr "completed"); ("result", r1)];
            m_timestamp := t1 |};
         {| m_type := "node_execution_start";
            m_data := [("node_id", JStr node_id); ("workflow_id", JStr workflow_id);
                       ("status", JStr "running")];
            m_timestamp := now w1 |};
         {| m_type := "node_execution_complete";
            m_data := [("node_id", JStr node_id); ("workflow_id", JStr workflow_id);
                       ("status", JStr "completed"); ("result", r2)];
            m_timestamp := t2 |}].
Proof.
  intros Hwf Hnode Hrun. cbv zeta.
  destruct (runnable_step node (started node_id workflow_id (n_type node) w) Hrun)
    as (r1 & w3 & Hstep1).
  destruct (outcome_ok _ _ input_data _ _ _ _ _ Hwf Hnode Hstep1)
    as (Hr1 & _ & _ & _ & Hev1 & _).
  destruct (execute_node_frame node_id workflow_id input_data w) as (Hw & Ha & _).
  set (w1 := (execute_node node_id workflow_id input_data w).2) in *.
  assert (Hwf1 : find_workflow w1 workflow_id = Some workflow)
    by (unfold find_workflow; by rewrite Hw).
  assert (Hs1 : subscribers w1 workflow_id = subscribers w workflow_id)
    by (unfold subscribers; by rewrite Ha).
  destruct (runnable_step node (started node_id workflow_id (n_type node) w1) Hrun)
    as (r2 & w4 & Hstep2).
  destruct (outcome_ok _ _ input_data _ _ _ _ _ Hwf1 Hnode Hstep2)
    as (Hr2 & _ & _ & _ & Hev2 & _).
  exists r1, r2, (now w3), (now w4). split; [done|]. split; [done|].
  intros ws Hnd Hin. rewrite Hev2, Hev1 by (by rewrite ?Hs1).
  by rewrite <- app_assoc.
Qed.

Lemma execute_node_twice_runs_twice_witness :
  let w1 := (execute_node "n1" "w1" ∅ demo_world).2 in
  let w2 := (execute_node "n1" "w1" ∅ w1).2 in
  ∃ r1 r2 t1 t2,
    events w2 8%nat
    = [{| m_type := "node_execution_start";
          m_data := [("node_id", JStr "n1"); ("workflow_id", JStr "w1");
                     ("status", JStr "running")];
          m_timestamp := 100 |};
       {| m_type := "node_execution_complete";
          m_data := [("node_id", JStr "n1"); ("workflow_id", JStr "w1");
                     ("status", JStr "completed"); ("result", r1)];
          m_timestamp := t1 |};
       {| m_type := "node_execution_start";
          m_data := [("node_id", JStr "n1"); ("workflow_id", JStr "w1");
                     ("status", JStr "running")];
          m_timestamp := 101 |};
       {| m_type := "node_execution_complete";
          m_data := [("node_id", JStr "n1"); ("workflow_id", JStr "w1");
                     ("status", JStr "completed"); ("result", r2)];
          m_timestamp := t2 |}].
Proof.
  destruct (execute_node_twice_runs_twice "n1" "w1" ∅ demo_world demo_workflow play_hi)
    as (r1 & r2 & t1 & t2 & _ & _ & Hev);
    [reflexivity | reflexivity | right; left; reflexivity |].
  exists r1, r2, t1, t2.
  apply (Hev 8%nat NoDup_demo_subscribers).
  apply list_elem_of_further, list_elem_of_here.
Defined.

(** ** Workflow CRUD operations *)

Lemma find_workflow_app w workflow_id pre post :
  workflows w = pre ++ post →
  (∀ x, x ∈ pre → w_id x ≠ workflow_id) →
  find_workflow w workflow_id = List.find (λ wf, String.eqb (w_id wf) workflow_id) post.
Proof.
  intros E Hpre. unfold find_workflow. rewrite E. clear E.
  induction pre as [|x pre IH]; [done|]. simpl.
  destruct (String.eqb_spec (w_id x) workflow_id) as [E|_].
  - destruct (Hpre x); [left | done].
  - apply IH. intros y Hy. apply Hpre. by right.
Qed.

Lemma delete_one_None workflow_id l :
  delete_one workflow_id l = None
  ↔ List.find (λ wf, String.eqb (w_id wf) workflow_id) l = None.
Proof.
  induction l as [|x l IH]; simpl; [done|].
  destruct (String.eqb (w_id x) workflow_id); [done|].
  rewrite <- IH. by destruct (delete_one workflow_id l).
Qed.

Lemma update_one_None workflow_id doc l :
  update_one workflow_id doc l = None
  ↔ List.find (λ wf, String.eqb (w_id wf) workflow_id) l = None.
Proof.
  induction l as [|x l IH]; simpl; [done|].
  destruct (String.eqb (w_id x) workflow_id); [done|].
  rewrite <- IH. by destruct (update_one workflow_id doc l).
Qed.

Lemma delete_one_first workflow_id pre wf post :
  w_id wf = workflow_id → (∀ x, x ∈ pre → w_id x ≠ workflow_id) →
  delete_one workflow_id (pre ++ wf :: post) = Some (pre ++ post).
Proof.
  intros Hid Hpre. induction pre as [|x pre IH]; simpl.
  - by rewrite (proj2 (String.eqb_eq _ _) Hid).
  - rewrite (proj2 (String.eqb_neq _ _)) by (apply Hpre; left).
    rewrite IH; [done|]. intros y Hy. apply Hpre. by right.
Qed.

Lemma update_one_first workflow_id doc pre wf post :
  w_id wf = workflow_id → (∀ x, x ∈ pre → w_id x ≠ workflow_id) →
  update_one workflow_id doc (pre ++ wf :: post) = Some (pre ++ doc :: post).
Proof.
  intros Hid Hpre. induction pre as [|x pre IH]; simpl.
  - by rewrite (proj2 (String.eqb_eq _ _) Hid).
  - rewrite (proj2 (String.eqb_neq _ _)) by (apply Hpre; left).
    rewrite IH; [done|]. intros y Hy. apply Hpre. by right.
Qed.

Lemma find_workflow_set_workflows l w workflow_id :
  find_workflow (set_workflows l w) workflow_id
  = List.find (λ wf, String.eqb (w_id wf) workflow_id) l.
Proof. reflexivity. Qed.

Lemma find_skip_other (other : string) (doc : Workflow) pre post :
  w_id doc ≠ other →
  List.find (λ wf, String.eqb (w_id wf) other) (pre ++ doc :: post)
  = List.find (λ wf, String.eqb (w_id wf) other) (pre ++ post).
Proof.
  intros Hne. induction pre as [|x pre IH]; simpl.
  - by rewrite (proj2 (String.eqb_neq _ _) Hne).
  - by rewrite IH.
Qed.

Lemma delete_404_iff_absent workflow_id w :
  ((delete_workflow workflow_id w).1 = Raise (HTTPException 404 "Workflow not found")
   ↔ find_workflow w workflow_id = None) ∧
  (find_workflow w workflow_id = None → (delete_workflow workflow_id w).2 = w).
Proof.
  unfold delete_workflow.
  pose proof (delete_one_None workflow_id (workflows w)) as Hd.
  fold (find_workflow w workflow_id) in Hd.
  destruct (delete_one workflow_id (workflows w)) as [l1|]; simpl; intuition congruence.
Qed.

Lemma update_outcomes bson_error workflow_id body w :
  let doc := touch body (now w) in
  (∀ e, bson_error doc = Some e →
     update_workflow bson_error workflow_id body w = (Raise e, w)) ∧
  (bson_error doc = None →
     ((update_workflow bson_error workflow_id body w).1
        = Raise (HTTPException 404 "Workflow not found")
      ↔ find_workflow w workflow_id = None) ∧
     (find_workflow w workflow_id = None →
      (update_workflow bson_error workflow_id body w).2 = w)).
Proof.
  cbv zeta. unfold update_workflow. split.
  - by intros e ->.
  - intros ->.
    pose proof (update_one_None workflow_id (touch body (now w)) (workflows w)) as Hu.
    fold (find_workflow w workflow_id) in Hu.
    destruct (update_one workflow_id (touch body (now w)) (workflows w)) as [l2|];
      simpl; intuition congruence.
Qed.

(** X15: [delete_workflow] answers 404 "Workflow not found" exactly when no
    document has the id. [update_workflow] does so too for a body the
    driver encodes; a body it refuses makes the update raise the encoder's
    exception, whether a document has the id or not. In each of these cases
    the world is left as it was. *)
Theorem delete_and_update_404_iff_absent bson_error workflow_id body w :
  ((delete_workflow workflow_id w).1 = Raise (HTTPException 404 "Workflow not found")
   ↔ find_workflow w workflow_id = None) ∧
  (find_workflow w workflow_id = None → (delete_workflow workflow_id w).2 = w) ∧
  (∀ e, bson_error (touch body (now w)) = Some e →
     update_workflow bson_error workflow_id body w = (Raise e, w)) ∧
  (bson_error (touch body (now w)) = None →
     ((update_workflow bson_error workflow_id body w).1
        = Raise (HTTPException 404 "Workflow not found")
      ↔ find_workflow w workflow_id = None) ∧
     (find_workflow w workflow_id = None →
      (update_workflow bson_error workflow_id body w).2 = w)).
Proof.
  destruct (delete_404_iff_absent workflow_id w) as [Hd1 Hd2].
  destruct (update_outcomes bson_error workflow_id body w) as [Hu1 Hu2].
  split; [exact Hd1|]. split; [exact Hd2|]. split; [exact Hu1 | exact Hu2].
Qed.

(** X16: [delete_workflow] removes the first document with the id and
    nothing else: the other documents keep their order, a later document
    with the same id becomes the one the id resolves to, and every other id
    resolves as before. *)
Theorem delete_workflow_removes_first_match workflow_id w pre wf post :
  workflows w = pre ++ wf :: post →
  w_id wf = workflow_id →
  (∀ x, x ∈ pre → w_id x ≠ workflow_id) →
  let w' := (delete_workflow workflow_id w).2 in
  (delete_workflow workflow_id w).1 = Ok tt ∧
  workflows w' = pre ++ post ∧
  find_workflow w' workflow_id
    = List.find (λ x, String.eqb (w_id x) workflow_id) post ∧
  ∀ other, other ≠ workflow_id → find_workflow w' other = find_workflow w other.
Proof.
  intros E Hid Hpre. unfold delete_workflow.
  rewrite E, delete_one_first by done. simpl.
  split; [done|]. split; [done|]. split.
  - by apply (find_workflow_app (set_workflows (pre ++ post) w) workflow_id pre post).
  - intros other Hne. rewrite find_workflow_set_workflows. unfold find_workflow.
    rewrite E. symmetry. apply find_skip_other. congruence.
Qed.

Lemma delete_workflow_removes_first_match_witness :
  let w' := (delete_workflow "w1" demo_world).2 in
  (delete_workflow "w1" demo_world).1 = Ok tt ∧ workflows w' = [] ∧
  find_workflow w' "w1" = None.
Proof.
  destruct (delete_workflow_removes_first_match "w1" demo_world [] demo_workflow [])
    as (Hr & Hw & Hf & _).
  - reflexivity.
  - reflexivity.
  - intros x Hx. by apply elem_of_nil in Hx.
  - split; [exact Hr|]. split; [exact Hw | exact Hf].
Defined.

(** X17: after the only document with an id is deleted, [execute_node] for
    that workflow answers 404 "Workflow not found" and publishes nothing. *)
Theorem deleted_workflow_is_gone_for_execute node_id workflow_id input_data w pre wf post :
  workflows w = pre ++ wf :: post →
  w_id wf = workflow_id →
  (∀ x, x ∈ pre ++ post → w_id x ≠ workflow_id) →
  let w' := (delete_workflow workflow_id w).2 in
  execute_node node_id workflow_id input_data w'
  = (Raise (HTTPException 404 "Workflow not found"), w').
Proof.
  intros E Hid Hnone. cbv zeta. apply execute_node_no_workflow.
  apply find_workflow_absent. unfold delete_workflow.
  rewrite E, delete_one_first; [done..|].
  intros x Hx. apply Hnone, elem_of_app. by left.
Qed.

Lemma deleted_workflow_is_gone_for_execute_witness :
  (execute_node "n1" "w1" ∅ demo_world).1 ≠ Raise (HTTPException 404 "Workflow not found") ∧
  (execute_node "n1" "w1" ∅ (delete_workflow "w1" demo_world).2).1
  = Raise (HTTPException 404 "Workflow not found").
Proof.
  split; [discriminate|].
  rewrite (deleted_workflow_is_gone_for_execute "n1" "w1" ∅ demo_world
             [] demo_workflow []); [reflexivity..|].
  intros x Hx. by apply elem_of_nil in Hx.
Defined.

Lemma create_encoded bson_error workflow w :
  bson_error workflow = None →
  create_workflow bson_error workflow w
  = (Ok workflow, set_workflows (workflows w ++ [workflow]) w).
Proof. intros H. unfold create_workflow. by rewrite H. Qed.

Lemma find_after_insert workflow workflow_id w :
  find_workflow (set_workflows (workflows w ++ [workflow]) w) workflow_id
  = match find_workflow w workflow_id with
    | Some older => Some older
    | None => if String.eqb (w_id workflow) workflow_id then Some workflow else None
    end.
Proof.
  rewrite find_workflow_set_workflows. unfold find_workflow.
  induction (workflows w) as [|x l IH]; simpl; [done|].
  by destruct (String.eqb (w_id x) workflow_id).
Qed.

(** X18: [create_workflow] inserts without looking for a document with the
    same id and never replaces one. For a document the driver encodes, an
    id that resolved before resolves to the same document afterwards, and
    the new document is found only under an id that did not resolve, when
    it is its id: a document created under an id already in use is shadowed
    by the older one. A document the driver refuses makes the call raise
    the encoder's exception and stores nothing. *)
Theorem create_workflow_lookup bson_error workflow workflow_id w :
  (∀ e, bson_error workflow = Some e →
     create_workflow bson_error workflow w = (Raise e, w)) ∧
  (bson_error workflow = None →
     find_workflow (create_workflow bson_error workflow w).2 workflow_id
     = match find_workflow w workflow_id with
       | Some older => Some older
       | None => if String.eqb (w_id workflow) workflow_id then Some workflow else None
       end).
Proof.
  split.
  - intros e He. unfold create_workflow. by rewrite He.
  - intros Hok. rewrite create_encoded by done. apply find_after_insert.
Qed.

Lemma update_first_match bson_error workflow_id body w pre old post :
  bson_error (touch body (now w)) = None →
  workflows w = pre ++ old :: post →
  w_id old = workflow_id →
  (∀ x, x ∈ pre → w_id x ≠ workflow_id) →
  update_workflow bson_error workflow_id body w
  = (Ok (touch body (now w)),
     set_workflows (pre ++ touch body (now w) :: post) w).
Proof.
  intros Hok E Hid Hpre. unfold update_workflow.
  by rewrite Hok, E, update_one_first.
Qed.

(** X20: [update_workflow], given a body the driver encodes, overwrites the
    first document with the id by the request body, stamped with the
    current time as [updated_at]: name, nodes, edges, and also the id and
    [created_at] are the body's. The other documents stay where they are,
    and when the body carries the same id, the id resolves to the new
    document. *)
Theorem update_workflow_replaces_first_match bson_error workflow_id body w pre old post :
  bson_error (touch body (now w)) = None →
  workflows w = pre ++ old :: post →
  w_id old = workflow_id →
  (∀ x, x ∈ pre → w_id x ≠ workflow_id) →
  let w' := (update_workflow bson_error workflow_id body w).2 in
  ∃ doc,
    (update_workflow bson_error workflow_id body w).1 = Ok doc ∧
    workflows w' = pre ++ doc :: post ∧
    w_id doc = w_id body ∧ w_name doc = w_name body ∧
    w_nodes doc = w_nodes body ∧ w_edges doc = w_edges body ∧
    w_created_at doc = w_created_at body ∧ w_updated_at doc = now w ∧
    (w_id body = workflow_id → find_workflow w' workflow_id = Some doc).
Proof.
  intros Hok E Hid Hpre. cbv zeta.
  rewrite (update_first_match _ _ _ _ _ _ _ Hok E Hid Hpre). simpl.
  exists (touch body (now w)). repeat split.
  intros Hbody.
  rewrite (find_workflow_app _ workflow_id pre (touch body (now w) :: post)) by done.
  simpl. by rewrite (proj2 (String.eqb_eq _ _) Hbody).
Qed.

Lemma update_workflow_replaces_first_match_witness :
  let w' := (update_workflow int64_only "w1" renamed_body demo_world).2 in
  ∃ doc, find_workflow w' "w1" = Some doc ∧
         w_name doc = "renamed" ∧ w_created_at doc = 5 ∧ w_updated_at doc = 100.
Proof.
  destruct (update_workflow_replaces_first_match int64_only "w1" renamed_body
              demo_world [] demo_workflow [])
    as (doc & _ & _ & _ & Hname & _ & _ & Hc & Hu & Hf).
  - reflexivity.
  - reflexivity.
  - reflexivity.
  - intros x Hx. by apply elem_of_nil in Hx.
  - exists doc. split; [by apply Hf|]. split; [exact Hname|].
    split; [exact Hc | exact Hu].
Defined.

(** X21: the id in the path and the id in the body are not compared. When
    the body of an update, which the driver encodes, carries another id and
    the path's id belonged to one document only, the path's id no longer
    resolves afterwards: the same update sent again, a delete and
    [execute_node] all answer 404. *)
Theorem update_workflow_can_move_the_id bson_error node_id input_data workflow_id body
    w pre old post :
  bson_error (touch body (now w)) = None →
  workflows w = pre ++ old :: post →
  w_id old = workflow_id →
  (∀ x, x ∈ pre ++ post → w_id x ≠ workflow_id) →
  w_id body ≠ workflow_id →
  let w' := (update_workflow bson_error workflow_id body w).2 in
  (∃ doc, (update_workflow bson_error workflow_id body w).1 = Ok doc) ∧
  find_workflow w' workflow_id = None ∧
  (update_workflow bson_error workflow_id body w').1
    = Raise (HTTPException 404 "Workflow not found") ∧
  (delete_workflow workflow_id w').1
    = Raise (HTTPException 404 "Workflow not found") ∧
  (execute_node node_id workflow_id input_data w').1
    = Raise (HTTPException 404 "Workflow not found").
Proof.
  intros Hok E Hid Hnone Hbody. cbv zeta.
  assert (Hpre : ∀ x, x ∈ pre → w_id x ≠ workflow_id)
    by (intros x Hx; apply Hnone, elem_of_app; by left).
  rewrite (update_first_match _ _ _ _ _ _ _ Hok E Hid Hpre). simpl.
  set (w' := set_workflows _ w).
  assert (Hgone : find_workflow w' workflow_id = None).
  { apply find_workflow_absent. unfold w'; simpl.
    intros x [Hx|[->|Hx]%elem_of_cons]%elem_of_app.
    - by apply Hpre.
    - done.
    - apply Hnone, elem_of_app. by right. }
  destruct (delete_404_iff_absent workflow_id w') as (Hd & _).
  destruct (update_outcomes bson_error workflow_id body w') as (_ & Hu).
  split; [eauto|]. split; [done|]. split; [by apply Hu|]. split; [by apply Hd|].
  by rewrite execute_node_no_workflow.
Qed.

Lemma update_workflow_can_move_the_id_witness :
  let w' := (update_workflow int64_only "w1" moved_body demo_world).2 in
  find_workflow w' "w1" = None ∧
  (execute_node "n1" "w1" ∅ w').1 = Raise (HTTPException 404 "Workflow not found").
Proof.
  destruct (update_workflow_can_move_the_id int64_only "n1" ∅ "w1" moved_body
              demo_world [] demo_workflow [])
    as (_ & Hf & _ & _ & He).
  - reflexivity.
  - reflexivity.
  - reflexivity.
  - intros x Hx. by apply elem_of_nil in Hx.
  - discriminate.
  - split; [exact Hf | exact He].
Defined.

(** X22: creating a workflow the driver encodes under an id not yet in use,
    and deleting that id again, leaves the collection exactly as it was. *)
Theorem create_then_delete_restores bson_error workflow w :
  bson_error workflow = None →
  (∀ x, x ∈ workflows w → w_id x ≠ w_id workflow) →
  let w1 := (create_workflow bson_error workflow w).2 in
  (delete_workflow (w_id workflow) w1).1 = Ok tt ∧
  workflows (delete_workflow (w_id workflow) w1).2 = workflows w.
Proof.
  intros Hok Hfresh. cbv zeta. rewrite create_encoded by done.
  unfold delete_workflow; simpl.
  rewrite delete_one_first by done. simpl. by rewrite app_nil_r.
Qed.

Lemma create_then_delete_restores_witness :
  workflows (delete_workflow "w2" (create_workflow int64_only other_workflow demo_world).2).2
  = [demo_workflow].
Proof.
  apply (create_then_delete_restores int64_only other_workflow demo_world).
  - reflexivity.
  - intros x Hx. apply list_elem_of_singleton in Hx as ->. discriminate.
Defined.

(** ** The WebSocket endpoint *)

Lemma receive_loop_decoded json_loads websocket incoming messages rest
    goes_away_after w echoed :
  Forall2 (λ frame message, json_loads frame.2 = Ok message) incoming messages →
  ∃ w1 sent,
    receive_loop json_loads websocket (incoming ++ rest) goes_away_after w echoed
    = receive_loop json_loads websocket rest goes_away_after w1 (echoed ++ sent) ∧
    (λ frame, echo_data frame.2) <$> sent = messages ∧
    same_backend w w1 ∧ inbox w1 = inbox w ∧
    now w1 = now w + waits incoming + N.of_nat (length incoming) * latency w websocket.
Proof.
  intros Hall. revert w echoed.
  induction Hall as [|[wait data] message incoming messages Hd Hall IH]; intros w echoed.
  - exists w, []. rewrite app_nil_r. simpl.
    repeat split; try done. unfold waits; simpl. lia.
  - simpl in Hd. simpl. rewrite Hd.
    destruct (IH (set_now (now w + wait + latency w websocket) w)
                 (echoed ++ [(now w + wait + latency w websocket,
                              {| echo_data := message; echo_timestamp := now w + wait |})]))
      as (w1 & sent & -> & Hsent & [] & Hin & Hnow).
    eexists w1, (_ :: sent). rewrite <- app_assoc.
    split; [done|]. split; [by rewrite fmap_cons, Hsent|].
    split; [by split|]. split; [done|].
    rewrite Hnow. unfold waits. cbn [now set_now latency length foldr fst]. lia.
Qed.

(** X23: a client whose socket is new to the server and not registered for
    the workflow, which sends frames [json.loads] accepts and then goes
    away, gets every decoded message echoed back in order, and its handle,
    registered for the workflow during the session, is removed again: every
    workflow has the subscribers it had before and no event inbox is
    touched. The session lasts as long as the client waits before its
    frames and before leaving, plus the time the echoes take. *)
Theorem websocket_session_echoes_and_unregisters json_loads websocket workflow_id
    incoming goes_away_after messages w :
  Forall2 (λ frame message, json_loads frame.2 = Ok message) incoming messages →
  websocket ∉ accepted w →
  websocket ∉ subscribers w workflow_id →
  ∃ w' echoed,
    websocket_endpoint json_loads websocket workflow_id incoming goes_away_after w
    = (Ok tt, w', echoed) ∧
    (λ frame, echo_data frame.2) <$> echoed = messages ∧
    (∀ other, subscribers w' other = subscribers w other) ∧
    inbox w' = inbox w ∧
    now w' = now w + waits incoming + goes_away_after
             + N.of_nat (length incoming) * latency w websocket.
Proof.
  intros Hall Hnew Hfresh. unfold websocket_endpoint.
  rewrite connect_fresh by done.
  set (w0 := set_active_connections _ _).
  destruct (receive_loop_decoded json_loads websocket incoming messages []
              goes_away_after w0 [] Hall)
    as (w1 & sent & Hloop & Hsent & [] & Hin & Hnow).
  rewrite app_nil_r in Hloop. rewrite Hloop. simpl.
  set (w2 := set_now _ w1).
  assert (Hreg : active_connections w2 !! workflow_id
                 = Some (subscribers w workflow_id ++ websocket :: [])).
  { unfold w2; simpl. rewrite sb_active_connections0. apply lookup_insert_eq. }
  destruct (disconnect_first _ _ _ _ _ Hreg Hfresh)
    as (Hok & Hs & Hother & Hi & _ & _ & Hn).
  rewrite (surjective_pairing (ConnectionManager.disconnect websocket workflow_id w2)).
  rewrite Hok. eexists _, _. split; [done|]. split; [done|]. split.
  - intros other. destruct (decide (other = workflow_id)) as [->|Hne].
    + by rewrite Hs, app_nil_r.
    + rewrite Hother by done. unfold subscribers, w2; simpl.
      rewrite sb_active_connections0. unfold w0; simpl.
      by rewrite lookup_insert_ne.
  - split; [rewrite Hi; unfold w2; simpl; by rewrite Hin|].
    rewrite Hn. unfold w2; simpl. rewrite Hnow. unfold w0; simpl. lia.
Qed.

Lemma websocket_session_echoes_and_unregisters_witness :
  ∃ w' echoed,
    websocket_endpoint loads_literal 9%nat "w1" [(3, "null"); (4, "true")] 10 demo_world
    = (Ok tt, w', echoed) ∧
    (λ frame, echo_data frame.2) <$> echoed = [JNull; JBool true] ∧
    subscribers w' "w1" = [7%nat; 8%nat] ∧ now w' = 117.
Proof.
  destruct (websocket_session_echoes_and_unregisters loads_literal 9%nat "w1"
              [(3, "null"); (4, "true")] 10 [JNull; JBool true] demo_world)
    as (w' & echoed & Hrun & Hecho & Hsubs & _ & Hnow).
  - repeat constructor.
  - exact not_yet_accepted_9.
  - change (9%nat ∉ [7%nat; 8%nat]). not_listed.
  - exists w', echoed. split; [exact Hrun|]. split; [exact Hecho|].
    split; [exact (Hsubs "w1") | exact Hnow].
Defined.

(** X24: a frame [json.loads] rejects ends the session with that exception,
    which [except WebSocketDisconnect] does not catch: the frames before it
    have been echoed, the frames after it are never read, and
    [manager.disconnect] is not called, so the handle stays in the registry
    of the workflow, last in line. *)
Theorem undecodable_frame_leaves_handle_registered json_loads websocket workflow_id
    before messages wait bad after goes_away_after e w :
  Forall2 (λ frame message, json_loads frame.2 = Ok message) before messages →
  json_loads bad = Raise e →
  websocket ∉ accepted w →
  websocket ∉ subscribers w workflow_id →
  ∃ w' echoed,
    websocket_endpoint json_loads websocket workflow_id
      (before ++ (wait, bad) :: after) goes_away_after w
    = (Raise e, w', echoed) ∧
    (λ frame, echo_data frame.2) <$> echoed = messages ∧
    subscribers w' workflow_id = subscribers w workflow_id ++ [websocket] ∧
    (∀ other, other ≠ workflow_id → subscribers w' other = subscribers w other).
Proof.
  intros Hall Hbad Hnew Hfresh. unfold websocket_endpoint.
  rewrite connect_fresh by done.
  set (w0 := set_active_connections _ _).
  destruct (receive_loop_decoded json_loads websocket before messages
              ((wait, bad) :: after) goes_away_after w0 [] Hall)
    as (w1 & sent & Hloop & Hsent & [] & Hin & Hnow).
  rewrite Hloop. simpl. rewrite Hbad.
  eexists _, sent. split; [done|]. split; [done|].
  unfold subscribers; simpl. rewrite sb_active_connections0. unfold w0; simpl. split.
  - by rewrite lookup_insert_eq.
  - intros other Hne. by rewrite lookup_insert_ne.
Qed.

Lemma undecodable_frame_leaves_handle_registered_witness :
  ∃ w' echoed,
    websocket_endpoint loads_literal 9%nat "w1"
      [(3, "null"); (4, "hello"); (5, "true")] 10 demo_world
    = (Raise (ValueError "Expecting value: line 1 column 1 (char 0)"), w', echoed) ∧
    (λ frame, echo_data frame.2) <$> echoed = [JNull] ∧
    subscribers w' "w1" = [7%nat; 8%nat; 9%nat].
Proof.
  destruct (undecodable_frame_leaves_handle_registered loads_literal 9%nat "w1"
              [(3, "null")] [JNull] 4 "hello" [(5, "true")] 10
              (ValueError "Expecting value: line 1 column 1 (char 0)") demo_world)
    as (w' & echoed & Hrun & Hecho & Hsubs & _).
  - repeat constructor.
  - reflexivity.
  - exact not_yet_accepted_9.
  - change (9%nat ∉ [7%nat; 8%nat]). not_listed.
  - exists w', echoed. split; [exact Hrun|]. split; [exact Hecho | exact Hsubs].
Defined.

(** ** Voice integration *)

Lemma initiate_call_found phone_number workflow_id calls w workflow :
  find_workflow w workflow_id = Some workflow →
  initiate_call phone_number workflow_id calls w
  = (Ok ({| cd_call_id := "call_" +:+ uuid_pool w (uuid_drawn w);
            cd_status := "initiated"; cd_phone_number := phone_number |},
         calls ++ [{| c_id := "call_" +:+ uuid_pool w (uuid_drawn w);
                      c_workflow_id := workflow_id; c_phone_number := phone_number;
                      c_status := "initiated"; c_created_at := now w |}]),
     set_uuid_drawn (S (uuid_drawn w)) w).
Proof.
  intros Hwf. unfold initiate_call. rewrite bind_run. unfold find_one.
  fold (find_workflow w workflow_id). by rewrite Hwf.
Qed.

(** X25: as long as the uuid source does not repeat itself, two calls
    initiated one after the other get different identifiers, and both are
    on record in that order. *)
Theorem successive_calls_get_distinct_ids phone1 phone2 wid1 wid2 calls w workflow1 workflow2 :
  (∀ i j, uuid_pool w i = uuid_pool w j → i = j) →
  find_workflow w wid1 = Some workflow1 →
  find_workflow w wid2 = Some workflow2 →
  ∃ d1 calls1 w1 d2 calls2 w2,
    initiate_call phone1 wid1 calls w = (Ok (d1, calls1), w1) ∧
    initiate_call phone2 wid2 calls1 w1 = (Ok (d2, calls2), w2) ∧
    cd_call_id d1 ≠ cd_call_id d2 ∧
    c_id <$> calls2 = (c_id <$> calls) ++ [cd_call_id d1; cd_call_id d2].
Proof.
  intros Hinj Hwf1 Hwf2.
  rewrite (initiate_call_found _ _ _ _ _ Hwf1).
  eexists _, _, _. 
  assert (Hwf2' : find_workflow (set_uuid_drawn (S (uuid_drawn w)) w) wid2 = Some workflow2)
    by exact Hwf2.
  rewrite (initiate_call_found _ _ _ _ _ Hwf2').
  eexists _, _, _. split; [done|]. split; [done|]. simpl. split.
  - intros [= H]. apply Hinj in H. lia.
  - by rewrite !fmap_app, <- app_assoc.
Qed.

Lemma demo_uuid_pool_inj i j : uuid_pool demo_world i = uuid_pool demo_world j → i = j.
Proof. simpl. intros [= H]. by apply (inj pretty). Qed.

Lemma successive_calls_get_distinct_ids_witness :
  ∃ d1 calls1 w1 d2 calls2 w2,
    initiate_call "+15550000001" "w1" [] demo_world = (Ok (d1, calls1), w1) ∧
    initiate_call "+15550000002" "w1" calls1 w1 = (Ok (d2, calls2), w2) ∧
    cd_call_id d1 ≠ cd_call_id d2 ∧
    c_id <$> calls2 = [cd_call_id d1; cd_call_id d2].
Proof.
  exact (successive_calls_get_distinct_ids "+15550000001" "+15550000002" "w1" "w1" []
           demo_world demo_workflow demo_workflow demo_uuid_pool_inj eq_refl eq_refl).
Defined.
